(** * The Pascal VOC RetinaNet training script, as a Rocq model

    This development embeds
    [examples/training/object_detection/pascal_voc/retina_net.py]: a
    top-level Python script that parses two flags, picks a distribution
    strategy, builds two [tf.data] pipelines, assembles a RetinaNet around a
    pretrained ResNet50 and calls [model.fit].

    The script is straight-line code over framework calls.  It is modelled
    in an error monad: every framework call is a call site that may raise
    (an oracle says which sites raise what), module-level names become
    [let]-bound values, and what the framework builds (datasets, layers,
    Keras graphs, callbacks) is kept as the value the script asked for.
    The [tf.data] pipelines are then run by an executable semantics over
    lists, in which the tensor operations the script itself spells out
    ([tf.concat], [tf.expand_dims], [RaggedTensor.to_tensor], slicing) are
    list functions, and the learned or random parts of the framework stay
    abstract operations of a [Framework].

    Definitions come first: the monad, the framework values, the script,
    the pipeline semantics, the stages of the two pipelines, the fit loop,
    the end state of a run, a small framework to compute with.  The
    properties follow: how a run ends ([script_run]), the tensor lemmas,
    a small logic of what a pipeline yields, and one theorem for each
    property of the script. *)

From Stdlib Require Import ZArith QArith List String Bool Lia Arith Permutation.
Import ListNotations.

Set Warnings "-register-all".

Local Open Scope string_scope.
Local Open Scope list_scope.
Local Open Scope nat_scope.

(** ** Exceptions and the error monad *)

(** A Python exception object: its class and the names of the classes it
    inherits from.  [except C] catches by [isinstance], so subclasses of
    [C] are caught too. *)
Record exn := mk_exn { exn_class : string; exn_bases : list string }.

Definition isinstance (e : exn) (cls : string) : bool :=
  String.eqb (exn_class e) cls || existsb (String.eqb cls) (exn_bases e).

Inductive outcome (A : Type) : Type :=
| Ok (a : A)
| Raise (e : exn).
Arguments Ok {A} a.
Arguments Raise {A} e.

(** A call site: source line and callee. *)
Record site := At { site_line : nat; site_callee : string }.

Definition site_eqb (s t : site) : bool :=
  Nat.eqb (site_line s) (site_line t) && String.eqb (site_callee s) (site_callee t).

(** Which call sites raise, and what. *)
Definition oracle := site -> option exn.

Definition M (A : Type) : Type := oracle -> outcome A.

Definition ret {A} (a : A) : M A := fun _ => Ok a.

Definition bind {A B} (c : M A) (k : A -> M B) : M B :=
  fun o => match c o with
           | Ok a => k a o
           | Raise e => Raise e
           end.

Notation "x <- c ;; k" := (bind c (fun x => k))
  (at level 61, c at next level, right associativity).
Notation "c ;;; k" := (bind c (fun _ => k))
  (at level 61, right associativity).

(** A framework call at site [s] that returns [v] unless it raises. *)
Definition call {A} (s : site) (v : A) : M A :=
  fun o => match o s with
           | Some e => Raise e
           | None => Ok v
           end.

(** [try: body except cls: handler]. *)
Definition try_except {A} (body : M A) (cls : string) (handler : M A) : M A :=
  fun o => match body o with
           | Ok a => Ok a
           | Raise e => if isinstance e cls then handler o else Raise e
           end.

(** ** What the framework builds *)

(** [tf.distribute] strategies. *)
Inductive tpu_resolver := TPUClusterResolver_connect.

Inductive strategy :=
| TPUStrategy (tpu : tpu_resolver)
| MirroredStrategy.

(** [keras_cv.layers] preprocessing layers, by constructor arguments. *)
Inductive layer :=
| Resizing (height width : Z) (bounding_box_format : string)
           (pad_to_aspect_ratio : bool)
| RandomFlip (mode : string) (bounding_box_format : string)
| JitteredResize (target_size : Z * Z) (scale_factor : Q * Q)
                 (bounding_box_format : string)
| MixUp
| MaybeApply (inner : layer) (rate : Q) (batchwise : bool)
| Augmenter (layers : list layer).

(** The callables the script hands to [Dataset.map]. *)
Inductive map_fn :=
| unpackage_inputs_apply (bounding_box_format : string)
    (* the closure [apply] returned by [unpackage_inputs(fmt)], line 78 *)
| layer_call (l : layer)
    (* a preprocessing layer used as a function *)
| unpackage_inputs_tuple
    (* the second [unpackage_inputs], line 150 *)
| pad_fn_closure (GLOBAL_BATCH_SIZE : Z).
    (* [pad_fn], line 160, with the global it reads *)

(** [tf.data.AUTOTUNE]. *)
Definition AUTOTUNE : Z := (-1)%Z.

(** A [tf.data.Dataset], as the chain of calls that built it. *)
Inductive dataset :=
| tfds_load (name split : string) (with_info shuffle_files : bool)
| concatenate (self other : dataset)
| ds_map (self : dataset) (f : map_fn) (num_parallel_calls : Z)
| dense_to_ragged_batch (self : dataset) (batch_size : Z) (drop_remainder : bool)
| shuffle (self : dataset) (buffer_size : Z)
| prefetch (self : dataset) (buffer_size : Z).

(** Symbolic Keras tensors of the model graph. *)
Inductive ktensor :=
| KInput (shape : list Z)
| KPreprocessInput (x : ktensor)
| KResNet50Layer (include_top : bool) (input_tensor : ktensor)
                 (weights : string) (layer_name : string).

(** [keras.applications.ResNet50(...)]. *)
Record resnet50 := ResNet50 {
  rn50_include_top : bool;
  rn50_input_tensor : ktensor;
  rn50_weights : string
}.

(** [app.get_layer(name).output]. *)
Definition get_layer_output (app : resnet50) (layer_name : string) : ktensor :=
  KResNet50Layer (rn50_include_top app) (rn50_input_tensor app)
                 (rn50_weights app) layer_name.

(** [keras.Model(inputs=..., outputs=...)]; models start trainable. *)
Record keras_model := Build_keras_model {
  km_inputs : ktensor;
  km_outputs : list ktensor;
  km_trainable : bool
}.

Definition keras_Model (inputs : ktensor) (outputs : list ktensor) : keras_model :=
  Build_keras_model inputs outputs true.

Record optimizer := SGD { learning_rate : Q; global_clipnorm : Q }.

Record compile_args := Build_compile_args {
  classification_loss : string;
  box_loss : string;
  compile_optimizer : optimizer
}.

(** [keras_cv.models.RetinaNet]. *)
Record retina_net := Build_retina_net {
  rn_classes : Z;
  rn_bounding_box_format : string;
  rn_backbone : keras_model;
  rn_compiled : option compile_args
}.

Definition RetinaNet (classes : Z) (bounding_box_format : string)
  (backbone : keras_model) : retina_net :=
  Build_retina_net classes bounding_box_format backbone None.

(** [model.backbone.trainable = v]. *)
Definition set_backbone_trainable (m : retina_net) (v : bool) : retina_net :=
  Build_retina_net (rn_classes m) (rn_bounding_box_format m)
    (Build_keras_model (km_inputs (rn_backbone m)) (km_outputs (rn_backbone m)) v)
    (rn_compiled m).

(** [model.compile(...)]. *)
Definition compile (m : retina_net) (a : compile_args) : retina_net :=
  Build_retina_net (rn_classes m) (rn_bounding_box_format m) (rn_backbone m) (Some a).

Inductive callback :=
| TensorBoard (log_dir : string)
| ReduceLROnPlateau (patience : Z)
| EarlyStopping (patience : Z)
| ModelCheckpoint (filepath : string) (save_weights_only : bool)
| PyCOCOCallback (validation_data : dataset) (bounding_box_format : string).

(** The call [model.fit(x, validation_data=..., epochs=..., callbacks=...)]. *)
Record fit_call := Build_fit_call {
  fit_model : retina_net;
  fit_x : dataset;
  fit_validation_data : dataset;
  fit_epochs : Z;
  fit_callbacks : list callback
}.

(** ** Flags *)

Record flag_def := DEFINE_string {
  flag_name : string;
  flag_default : string;
  flag_help : string
}.

(** The command line, as the [--name=value] pairs it supplies. *)
Definition argv := list (string * string).

(** Value of a flag after parsing: the last value supplied, else the
    default. *)
Definition flag_value (args : argv) (d : flag_def) : string :=
  match find (fun p => String.eqb (fst p) (flag_name d)) (rev args) with
  | Some p => snd p
  | None => flag_default d
  end.

(** [FLAGS(sys.argv)]: the parsed flag values, by name. *)
Definition parse_flags (defs : list flag_def) (args : argv) : list (string * string) :=
  map (fun d => (flag_name d, flag_value args d)) defs.

(** ** The script *)

(** What the process can observe from outside the script: the file
    descriptor limits and the number of replicas of a strategy. *)
Record host := Build_host {
  getrlimit_NOFILE : Z * Z;
  num_replicas_in_sync : strategy -> Z
}.

(** Lines 53-59. *)
Definition build_strategy : M strategy :=
  try_except
    (tpu <- call (At 55 "TPUClusterResolver.connect") TPUClusterResolver_connect ;;
     call (At 56 "TPUStrategy") (TPUStrategy tpu))
    "ValueError"
    (call (At 59 "MirroredStrategy") MirroredStrategy).

(** Lines 78-95: [unpackage_inputs(bounding_box_format)] returns the
    closure [apply]. *)
Definition unpackage_inputs (bounding_box_format : string) : map_fn :=
  unpackage_inputs_apply bounding_box_format.

(** Module-level names at the end of the script. *)
Record globals := Build_globals {
  g_low_high : Z * Z;
  g_EPOCHS : Z;
  g_CHECKPOINT_PATH : string;
  g_FLAGS : list (string * string);
  g_strategy : strategy;
  g_BATCH_SIZE : Z;
  g_GLOBAL_BATCH_SIZE : Z;
  g_BASE_LR : Q;
  g_IMG_SIZE : Z;
  g_image_size : list Z;
  g_train_ds : dataset;
  g_eval_ds : dataset;
  g_eval_resizing : layer;
  g_augmenter : layer;
  g_model : retina_net;
  g_optimizer : optimizer;
  g_callbacks : list callback;
  g_history : fit_call
}.

(** [with strategy.scope(): body].  The scope's [__exit__] does not
    swallow an exception of the body. *)
Definition with_scope {A} (body : M A) : M A :=
  call (At 173 "strategy.scope") tt ;;;
  r <- body ;;
  call (At 173 "strategy.scope.__exit__") r.

(** The whole script, top to bottom.  [EPOCHS] is the value bound at
    line 36; see [script] below. *)
Definition script_body (EPOCHS : Z) (h : host) (args : argv) : M globals :=
  (* 33-34 *)
  low_high <- call (At 33 "resource.getrlimit") (getrlimit_NOFILE h) ;;
  call (At 34 "resource.setrlimit") (snd low_high, snd low_high) ;;;
  (* 37 *)
  let CHECKPOINT_PATH := "checkpoint/" in
  (* 39-50 *)
  f1 <- call (At 39 "flags.DEFINE_string")
          (DEFINE_string "weights_name" "weights_{epoch:02d}.h5"
             "Directory which will be used to store weight checkpoints.") ;;
  f2 <- call (At 44 "flags.DEFINE_string")
          (DEFINE_string "tensorboard_path" "logs"
             "Directory which will be used to store tensorboard logs.") ;;
  FLAGS <- call (At 50 "FLAGS") (parse_flags [f1; f2] args) ;;
  (* 53-59 *)
  strategy <- build_strategy ;;
  (* 61-65 *)
  let BATCH_SIZE := 4%Z in
  let GLOBAL_BATCH_SIZE := (BATCH_SIZE * num_replicas_in_sync h strategy)%Z in
  let BASE_LR := ((1 # 100) * inject_Z GLOBAL_BATCH_SIZE / inject_Z 16)%Q in
  call (At 64 "print") tt ;;;
  call (At 65 "print") tt ;;;
  (* 67-75 *)
  let IMG_SIZE := 640%Z in
  let image_size := [IMG_SIZE; IMG_SIZE; 3%Z] in
  train_ds <- call (At 69 "tfds.load")
                (tfds_load "voc/2007" "train+validation" false true) ;;
  other <- call (At 73 "tfds.load")
             (tfds_load "voc/2012" "train+validation" false true) ;;
  train_ds <- call (At 72 "Dataset.concatenate") (concatenate train_ds other) ;;
  eval_ds <- call (At 75 "tfds.load") (tfds_load "voc/2007" "test" false false) ;;
  (* 98-104 *)
  train_ds <- call (At 98 "Dataset.map")
                (ds_map train_ds (unpackage_inputs "xywh") AUTOTUNE) ;;
  batcher <- call (At 100 "dense_to_ragged_batch")
               (fun d => dense_to_ragged_batch d GLOBAL_BATCH_SIZE true) ;;
  train_ds <- call (At 99 "Dataset.apply") (batcher train_ds) ;;
  train_ds <- call (At 103 "Dataset.shuffle")
                (shuffle train_ds (8 * num_replicas_in_sync h strategy)%Z) ;;
  train_ds <- call (At 104 "Dataset.prefetch") (prefetch train_ds AUTOTUNE) ;;
  (* 106-113 *)
  eval_ds <- call (At 106 "Dataset.map")
               (ds_map eval_ds (unpackage_inputs "xywh") AUTOTUNE) ;;
  batcher <- call (At 111 "dense_to_ragged_batch")
               (fun d => dense_to_ragged_batch d GLOBAL_BATCH_SIZE true) ;;
  eval_ds <- call (At 110 "Dataset.apply") (batcher eval_ds) ;;
  eval_ds <- call (At 113 "Dataset.prefetch") (prefetch eval_ds AUTOTUNE) ;;
  (* 119-133 *)
  eval_resizing <- call (At 119 "layers.Resizing")
                     (Resizing IMG_SIZE IMG_SIZE "xywh" true) ;;
  l1 <- call (At 125 "layers.RandomFlip") (RandomFlip "horizontal" "xywh") ;;
  l2 <- call (At 126 "layers.JitteredResize")
          (JitteredResize (IMG_SIZE, IMG_SIZE) (8 # 10, 125 # 100)%Q "xywh") ;;
  mix <- call (At 131 "layers.MixUp") MixUp ;;
  l3 <- call (At 131 "layers.MaybeApply") (MaybeApply mix (5 # 10)%Q true) ;;
  augmenter <- call (At 123 "layers.Augmenter") (Augmenter [l1; l2; l3]) ;;
  (* 135-139 *)
  train_ds <- call (At 135 "Dataset.map")
                (ds_map train_ds (layer_call augmenter) AUTOTUNE) ;;
  eval_ds <- call (At 136 "Dataset.map")
               (ds_map eval_ds (layer_call eval_resizing) AUTOTUNE) ;;
  (* 150-155: the name [unpackage_inputs] is rebound *)
  let unpackage_inputs := unpackage_inputs_tuple in
  train_ds <- call (At 154 "Dataset.map")
                (ds_map train_ds unpackage_inputs AUTOTUNE) ;;
  eval_ds <- call (At 155 "Dataset.map")
               (ds_map eval_ds unpackage_inputs AUTOTUNE) ;;
  (* 160-171 *)
  let pad_fn := pad_fn_closure GLOBAL_BATCH_SIZE in
  train_ds <- call (At 170 "Dataset.map") (ds_map train_ds pad_fn AUTOTUNE) ;;
  eval_ds <- call (At 171 "Dataset.map") (ds_map eval_ds pad_fn AUTOTUNE) ;;
  (* 173-202 *)
  scoped <- with_scope (
    inputs <- call (At 174 "keras.layers.Input") (KInput image_size) ;;
    let x := inputs in
    x <- call (At 176 "resnet.preprocess_input") (KPreprocessInput x) ;;
    backbone <- call (At 178 "keras.applications.ResNet50")
                  (ResNet50 false x "imagenet") ;;
    outs <- call (At 183 "get_layer")
              (map (get_layer_output backbone)
                 ["conv3_block4_out"; "conv4_block6_out"; "conv5_block3_out"]) ;;
    backbone <- call (At 186 "keras.Model") (keras_Model inputs outs) ;;
    model <- call (At 192 "keras_cv.models.RetinaNet")
               (RetinaNet 20 "xywh" backbone) ;;
    model <- call (At 201 "backbone.trainable") (set_backbone_trainable model false) ;;
    optimizer <- call (At 202 "tf.optimizers.SGD") (SGD BASE_LR (inject_Z 10)) ;;
    ret (model, optimizer)) ;;
  let model := fst scoped in
  let optimizer := snd scoped in
  (* 204-208 *)
  model <- call (At 204 "model.compile")
             (compile model (Build_compile_args "focal" "smoothl1" optimizer)) ;;
  (* 210-216 *)
  c1 <- call (At 211 "keras.callbacks.TensorBoard") (TensorBoard "logs") ;;
  c2 <- call (At 212 "keras.callbacks.ReduceLROnPlateau") (ReduceLROnPlateau 5) ;;
  c3 <- call (At 213 "keras.callbacks.EarlyStopping") (EarlyStopping 10) ;;
  c4 <- call (At 214 "keras.callbacks.ModelCheckpoint")
          (ModelCheckpoint CHECKPOINT_PATH true) ;;
  c5 <- call (At 215 "PyCOCOCallback") (PyCOCOCallback eval_ds "xywh") ;;
  let callbacks := [c1; c2; c3; c4; c5] in
  (* 218-223 *)
  history <- call (At 218 "model.fit")
               (Build_fit_call model train_ds eval_ds 35 callbacks) ;;
  ret (Build_globals low_high EPOCHS CHECKPOINT_PATH FLAGS strategy BATCH_SIZE
         GLOBAL_BATCH_SIZE BASE_LR IMG_SIZE image_size train_ds eval_ds
         eval_resizing augmenter model optimizer callbacks history).

(** Line 36: [EPOCHS = 100]. *)
Definition script : host -> argv -> M globals := script_body 100.

(** ** Running the pipelines *)

(** Errors the tensor operations of the pipelines raise. *)
Definition TypeError : exn := mk_exn "TypeError" ["Exception"].
Definition IndexError : exn := mk_exn "IndexError" ["LookupError"; "Exception"].
Definition InvalidArgumentError : exn :=
  mk_exn "InvalidArgumentError" ["OpError"; "Exception"].

Definition obind {A B} (c : outcome A) (k : A -> outcome B) : outcome B :=
  match c with
  | Ok a => k a
  | Raise e => Raise e
  end.

Fixpoint mapM {A B} (f : A -> outcome B) (xs : list A) : outcome (list B) :=
  match xs with
  | [] => Ok []
  | x :: xs' =>
      obind (f x) (fun y => obind (mapM f xs') (fun ys => Ok (y :: ys)))
  end.

(** [mapM] with the position of each element in the stream. *)
Fixpoint mapM_from {A B} (i : nat) (f : nat -> A -> outcome B) (xs : list A)
  : outcome (list B) :=
  match xs with
  | [] => Ok []
  | x :: xs' =>
      obind (f i x) (fun y => obind (mapM_from (S i) f xs') (fun ys => Ok (y :: ys)))
  end.

(** The parts of the framework the script only calls: tensor element
    types, casts, the learned or random image operations, the datasets on
    disk.  [f32] stands for float32 scalars, [RawImage] for the uint8 image
    tensor of a dataset example, [Image] for a float32 image tensor. *)
Class Framework := {
  f32 : Type;
  f32_lit : Q -> f32;
  cast_int64 : Z -> f32;
  RawImage : Type;
  Image : Type;
  cast_image : RawImage -> Image;
  (** [keras.applications.resnet50.preprocess_input], which is the same
      function as [keras.applications.resnet.preprocess_input] *)
  preprocess_input : Image -> Image;
  (** [keras_cv.bounding_box.convert_format(boxes, images, source, target)] *)
  convert_format : list (list f32) -> Image -> string -> string -> list (list f32);
  (** a [keras_cv.layers] layer called on a batch, with the random draw it
      makes *)
  apply_layer : layer -> nat -> list Image * list (list (list f32)) ->
                outcome (list Image * list (list (list f32)));
  (** the examples [tfds.load(name, split, shuffle_files)] yields: image,
      [objects/bbox], [objects/label] *)
  tfds_data : string -> string -> bool ->
              list (RawImage * (list (list f32) * list Z))
}.

Section Pipelines.
Context {tf : Framework}.

(** A dataset example as [tfds] yields it (the keys the script reads). *)
Record Example := Build_Example {
  ex_image : RawImage;
  ex_objects_bbox : list (list f32);
  ex_objects_label : list Z
}.

Definition example_of (t : RawImage * (list (list f32) * list Z)) : Example :=
  Build_Example (fst t) (fst (snd t)) (snd (snd t)).

(** The elements that flow through the pipelines. *)
Inductive value :=
| VExample (inputs : Example)
| VSample (images : Image) (bounding_boxes : list (list f32))
    (* {"images": ..., "bounding_boxes": ...} for one image *)
| VBatch (images : list Image) (bounding_boxes : list (list (list f32)))
    (* the same dictionary, batched; boxes ragged *)
| VTuple (images : list Image) (bounding_boxes : list (list (list f32)))
    (* (images, bounding_boxes) *)
| VLabeled (images : list Image) (boxes : list (list (list f32)))
           (classes : list (list f32)).
    (* (image, {"boxes": ..., "classes": ...}) *)

(** [tf.expand_dims(t, axis=1)] on a vector. *)
Definition expand_dims_1 {A} (t : list A) : list (list A) :=
  map (fun c => [c]) t.

(** [tf.concat([a, b], axis=-1)] on two matrices; the row counts must
    agree. *)
Fixpoint zip_rows {A} (a b : list (list A)) : list (list A) :=
  match a, b with
  | r :: a', s :: b' => (r ++ s) :: zip_rows a' b'
  | _, _ => []
  end.

Definition concat_last {A} (a b : list (list A)) : outcome (list (list A)) :=
  if Nat.eqb (List.length a) (List.length b) then Ok (zip_rows a b)
  else Raise InvalidArgumentError.

(** Lines 79-93: [apply(inputs)].  [objects/bbox] is already float32, so
    its cast changes nothing. *)
Definition apply (bounding_box_format : string) (inputs : Example)
  : outcome (Image * list (list f32)) :=
  let image := ex_image inputs in
  let image := cast_image image in
  let image := preprocess_input image in
  let gt_boxes := ex_objects_bbox inputs in
  let gt_classes := map cast_int64 (ex_objects_label inputs) in
  let gt_classes := expand_dims_1 gt_classes in
  let gt_boxes := convert_format gt_boxes image "rel_yxyx" bounding_box_format in
  obind (concat_last gt_boxes gt_classes) (fun bounding_boxes =>
  Ok (image, bounding_boxes)).

(** Pad with [d] or truncate to exactly [n] entries. *)
Definition resize {A} (n : nat) (d : A) (l : list A) : list A :=
  firstn n (l ++ repeat d n).

(** [rt.to_tensor(default_value=d, shape=[b, r, c])] on a ragged tensor of
    rank 3: every dimension is padded or truncated to the shape asked
    for. *)
Definition to_tensor {A} (default_value : A) (b r c : nat)
  (rt : list (list (list A))) : list (list (list A)) :=
  resize b (repeat (repeat default_value c) r)
    (map (fun rows => resize r (repeat default_value c)
                        (map (resize c default_value) rows)) rt).

(** [t[..., :4]] *)
Definition slice_to_4 {A} (t : list (list (list A))) : list (list (list A)) :=
  map (map (firstn 4)) t.

(** [t[..., 4]] *)
Definition index_4 {A} (t : list (list (list A))) : outcome (list (list A)) :=
  mapM (mapM (fun row => match nth_error row 4 with
                         | Some x => Ok x
                         | None => Raise IndexError
                         end)) t.

(** Lines 160-167. *)
Definition pad_fn (GLOBAL_BATCH_SIZE : Z) (image : list Image)
  (boxes : list (list (list f32)))
  : outcome (list Image * (list (list (list f32)) * list (list f32))) :=
  let boxes := to_tensor (f32_lit (-1)) (Z.to_nat GLOBAL_BATCH_SIZE) 32 5 boxes in
  let gt_boxes := slice_to_4 boxes in
  obind (index_4 boxes) (fun gt_classes =>
  Ok (image, (gt_boxes, gt_classes))).

(** A mapped callable on one element.  An element of a kind the callable
    cannot take is a [TypeError]. *)
Definition apply_map_fn (f : map_fn) (draw : nat) (v : value) : outcome value :=
  match f, v with
  | unpackage_inputs_apply fmt, VExample inputs =>
      obind (apply fmt inputs) (fun r => Ok (VSample (fst r) (snd r)))
  | layer_call l, VBatch images bounding_boxes =>
      obind (apply_layer l draw (images, bounding_boxes))
            (fun r => Ok (VBatch (fst r) (snd r)))
  | unpackage_inputs_tuple, VBatch images bounding_boxes =>
      (* lines 150-151 *)
      Ok (VTuple images bounding_boxes)
  | pad_fn_closure g, VTuple image boxes =>
      obind (pad_fn g image boxes)
            (fun r => Ok (VLabeled (fst r) (fst (snd r)) (snd (snd r))))
  | _, _ => Raise TypeError
  end.

(** Consecutive groups of [n] elements; a short last group is dropped
    when [drop_remainder] is set. *)
Fixpoint chunks {A} (fuel n : nat) (drop_remainder : bool) (xs : list A)
  : list (list A) :=
  match fuel with
  | O => []
  | S fuel' =>
      match xs with
      | [] => []
      | _ :: _ =>
          if Nat.ltb (List.length xs) n
          then (if drop_remainder then [] else [xs])
          else firstn n xs :: chunks fuel' n drop_remainder (skipn n xs)
      end
  end.

(** One ragged batch out of a group of per-image dictionaries. *)
Definition ragged_batch (group : list value) : outcome value :=
  obind (mapM (fun v => match v with
                        | VSample images bounding_boxes => Ok (images, bounding_boxes)
                        | _ => Raise TypeError
                        end) group)
        (fun samples => Ok (VBatch (map fst samples) (map snd samples))).

(** The random choices of one pass over a pipeline: the order a shuffle
    of a given buffer size emits a stream of a given length in, and the
    draw a mapped callable makes on the element at each position. *)
Record rng := Build_rng {
  shuffle_order : Z -> nat -> list nat;
  draw_at : map_fn -> nat -> nat
}.

Definition pick {A} (order : list nat) (xs : list A) : list A :=
  flat_map (fun i => match nth_error xs i with
                     | Some x => [x]
                     | None => []
                     end) order.

(** The elements one pass over a dataset yields. *)
Fixpoint ds_run (r : rng) (d : dataset) : outcome (list value) :=
  match d with
  | tfds_load name split _ shuffle_files =>
      Ok (map (fun t => VExample (example_of t)) (tfds_data name split shuffle_files))
  | concatenate self other =>
      obind (ds_run r self) (fun xs =>
      obind (ds_run r other) (fun ys => Ok (xs ++ ys)))
  | ds_map self f _ =>
      obind (ds_run r self) (fun xs =>
      mapM_from 0 (fun i => apply_map_fn f (draw_at r f i)) xs)
  | dense_to_ragged_batch self batch_size drop_remainder =>
      obind (ds_run r self) (fun xs =>
      if (batch_size <=? 0)%Z then Raise InvalidArgumentError
      else mapM ragged_batch
             (chunks (List.length xs) (Z.to_nat batch_size) drop_remainder xs))
  | shuffle self buffer_size =>
      obind (ds_run r self) (fun xs =>
      Ok (pick (shuffle_order r buffer_size (List.length xs)) xs))
  | prefetch self _ => ds_run r self
  end.

(** The value a Keras graph tensor takes when the model is fed a batch of
    images, for the part of the graph the script builds itself; the
    outputs of the learned layers are not modelled. *)
Fixpoint tensor_value (t : ktensor) (images : list Image) : option (list Image) :=
  match t with
  | KInput _ => Some images
  | KPreprocessInput x => option_map (map preprocess_input) (tensor_value x images)
  | KResNet50Layer _ _ _ _ => None
  end.

(** What the ResNet50 layers behind a backbone output receive as their
    input when the model is fed [images]. *)
Definition resnet_receives (output : ktensor) (images : list Image)
  : option (list Image) :=
  match output with
  | KResNet50Layer _ input_tensor _ _ => tensor_value input_tensor images
  | _ => None
  end.

End Pipelines.

(** ** The pipelines, stage by stage *)

(** The values the names [train_ds] and [eval_ds] hold along the script,
    for [n] replicas in sync. *)

(** Lines 69-74. *)
Definition train_source : dataset :=
  concatenate (tfds_load "voc/2007" "train+validation" false true)
              (tfds_load "voc/2012" "train+validation" false true).

(** Line 75. *)
Definition eval_source : dataset := tfds_load "voc/2007" "test" false false.

(** Lines 98 and 106-109. *)
Definition samples_of (source : dataset) : dataset :=
  ds_map source (unpackage_inputs "xywh") AUTOTUNE.

(** Lines 99-101 and 110-112. *)
Definition batches_of (GLOBAL_BATCH_SIZE : Z) (source : dataset) : dataset :=
  dense_to_ragged_batch (samples_of source) GLOBAL_BATCH_SIZE true.

(** Lines 119-121. *)
Definition eval_resizing_layer : layer := Resizing 640 640 "xywh" true.

(** Lines 123-133. *)
Definition augmenter_layer : layer :=
  Augmenter [RandomFlip "horizontal" "xywh";
             JitteredResize (640, 640)%Z (8 # 10, 125 # 100)%Q "xywh";
             MaybeApply MixUp (5 # 10)%Q true].

(** Lines 135-171: a layer, then the tuple unpacking, then [pad_fn]. *)
Definition labeled_by (GLOBAL_BATCH_SIZE : Z) (l : layer) (batches : dataset)
  : dataset :=
  ds_map (ds_map (ds_map batches (layer_call l) AUTOTUNE)
                 unpackage_inputs_tuple AUTOTUNE)
         (pad_fn_closure GLOBAL_BATCH_SIZE) AUTOTUNE.

Definition train_pipeline (n : Z) : dataset :=
  labeled_by (4 * n) augmenter_layer
    (prefetch (shuffle (batches_of (4 * n) train_source) (8 * n)) AUTOTUNE).

Definition eval_pipeline (n : Z) : dataset :=
  labeled_by (4 * n) eval_resizing_layer
    (prefetch (batches_of (4 * n) eval_source) AUTOTUNE).

(** The backbone the script assembles: the three ResNet50 feature maps
    over the preprocessed input, lines 174-186. *)
Definition backbone_outputs : list ktensor :=
  map (KResNet50Layer false (KPreprocessInput (KInput [640; 640; 3]%Z)) "imagenet")
    ["conv3_block4_out"; "conv4_block6_out"; "conv5_block3_out"].

(** The datasets, layers and random layers a dataset is built from. *)
Fixpoint mapped_layers (d : dataset) : list layer :=
  match d with
  | tfds_load _ _ _ _ => []
  | concatenate a b => mapped_layers a ++ mapped_layers b
  | ds_map self (layer_call l) _ => mapped_layers self ++ [l]
  | ds_map self _ _ => mapped_layers self
  | dense_to_ragged_batch self _ _ => mapped_layers self
  | shuffle self _ => mapped_layers self
  | prefetch self _ => mapped_layers self
  end.

Fixpoint shuffle_buffers (d : dataset) : list Z :=
  match d with
  | tfds_load _ _ _ _ => []
  | concatenate a b => shuffle_buffers a ++ shuffle_buffers b
  | ds_map self _ _ => shuffle_buffers self
  | dense_to_ragged_batch self _ _ => shuffle_buffers self
  | shuffle self b => shuffle_buffers self ++ [b]
  | prefetch self _ => shuffle_buffers self
  end.

(** The dataset a pipeline reads: what is left when every transformation
    is taken off. *)
Fixpoint source_of (d : dataset) : dataset :=
  match d with
  | tfds_load _ _ _ _ => d
  | concatenate a b => concatenate (source_of a) (source_of b)
  | ds_map self _ _ => source_of self
  | dense_to_ragged_batch self _ _ => source_of self
  | shuffle self _ => source_of self
  | prefetch self _ => source_of self
  end.

(** The datasets a [fit] call consumes: its two arguments and those its
    callbacks hold. *)
Definition callback_datasets (c : callback) : list dataset :=
  match c with
  | PyCOCOCallback validation_data _ => [validation_data]
  | _ => []
  end.

Definition datasets_used (c : fit_call) : list dataset :=
  fit_x c :: fit_validation_data c :: flat_map callback_datasets (fit_callbacks c).

(** The bounding box formats a layer and its sublayers are built with. *)
Fixpoint layer_formats (l : layer) : list string :=
  match l with
  | Resizing _ _ fmt _ => [fmt]
  | RandomFlip _ fmt => [fmt]
  | JitteredResize _ _ fmt => [fmt]
  | MixUp => []
  | MaybeApply inner _ _ => layer_formats inner
  | Augmenter layers => flat_map layer_formats layers
  end.

(** The globals with another value for [FLAGS], and with another value
    for [EPOCHS]. *)
Definition with_FLAGS (g : globals) (FLAGS : list (string * string)) : globals :=
  Build_globals (g_low_high g) (g_EPOCHS g) (g_CHECKPOINT_PATH g) FLAGS
    (g_strategy g) (g_BATCH_SIZE g) (g_GLOBAL_BATCH_SIZE g) (g_BASE_LR g)
    (g_IMG_SIZE g) (g_image_size g) (g_train_ds g) (g_eval_ds g)
    (g_eval_resizing g) (g_augmenter g) (g_model g) (g_optimizer g)
    (g_callbacks g) (g_history g).

Definition with_EPOCHS (g : globals) (EPOCHS : Z) : globals :=
  Build_globals (g_low_high g) EPOCHS (g_CHECKPOINT_PATH g) (g_FLAGS g)
    (g_strategy g) (g_BATCH_SIZE g) (g_GLOBAL_BATCH_SIZE g) (g_BASE_LR g)
    (g_IMG_SIZE g) (g_image_size g) (g_train_ds g) (g_eval_ds g)
    (g_eval_resizing g) (g_augmenter g) (g_model g) (g_optimizer g)
    (g_callbacks g) (g_history g).

Section Sources.
Context {tf : Framework}.

(** The raw images of the examples a pipeline reads. *)
Fixpoint source_images (d : dataset) : list RawImage :=
  match d with
  | tfds_load name split _ shuffle_files =>
      map fst (tfds_data name split shuffle_files)
  | concatenate a b => source_images a ++ source_images b
  | ds_map self _ _ => source_images self
  | dense_to_ragged_batch self _ _ => source_images self
  | shuffle self _ => source_images self
  | prefetch self _ => source_images self
  end.

(** An element of a finished pipeline whose images came out of layer [l]
    called on a batch of images that are each [preprocess_input] of the
    cast of one of the raw images [raws]. *)
Definition preprocessed_then (l : layer) (raws : list RawImage) (v : value) : Prop :=
  exists images boxes classes draw batch_in boxes_in boxes_out,
    v = VLabeled images boxes classes /\
    Forall (fun image => exists raw,
              In raw raws /\ image = preprocess_input (cast_image raw)) batch_in /\
    apply_layer l draw (batch_in, boxes_in) = Ok (images, boxes_out).

(** Every element one pass over [d] yields satisfies [P]. *)
Definition yields (r : rng) (d : dataset) (P : value -> Prop) : Prop :=
  forall out, ds_run r d = Ok out -> Forall P out.

End Sources.

(** ** The fit loop *)

Section Training.
Context {tf : Framework}.

(** Weight values of a group of layers, and the update one optimizer step
    proposes for all the weights of a model from a batch. *)
Variable W : Type.
Variable gradient_update : retina_net -> W * W -> value -> W * W.

(** The weights of a RetinaNet: those of its backbone, and those of the
    detection head (feature pyramid, box and classification heads). *)
Record net_weights := Build_net_weights { w_backbone : W; w_head : W }.

(** Modelled from the spec: the training step of the fit loop, which is in
    [keras_cv.models.RetinaNet] and Keras and not in the script.  One step
    applies the optimizer's update to the trainable weights only: the
    weights of a model whose [trainable] is false are left out of the
    gradient update. *)
Definition train_step (m : retina_net) (w : net_weights) (batch : value)
  : net_weights :=
  let proposed := gradient_update m (w_backbone w, w_head w) batch in
  Build_net_weights
    (if km_trainable (rn_backbone m) then fst proposed else w_backbone w)
    (snd proposed).

(** Modelled from the spec: the fit loop, as the steps it takes over the
    batches it is fed, whatever their number (epochs, early stopping). *)
Definition fit_loop (c : fit_call) (w : net_weights) (batches : list value)
  : net_weights :=
  fold_left (train_step (fit_model c)) batches w.

End Training.

(** The pretrained weights the ResNet50 layers behind a backbone output
    were loaded from. *)
Definition output_weights (t : ktensor) : option string :=
  match t with
  | KResNet50Layer _ _ weights _ => Some weights
  | _ => None
  end.

(** ** Shapes *)

(** A dense matrix of [b] rows of [r] entries, and a dense tensor of [b]
    matrices of [r] rows of [c] entries. *)
Definition has_shape2 {A : Type} (b r : nat) (t : list (list A)) : Prop :=
  List.length t = b /\ Forall (fun row => List.length row = r) t.

Definition has_shape3 {A : Type} (b r c : nat) (t : list (list (list A))) : Prop :=
  List.length t = b /\ Forall (has_shape2 r c) t.

(** ** The end state in closed form *)

(** The module-level names once the script has run to its end with
    strategy [s]; [script_run] below proves it is what the script
    computes. *)
Definition final_globals (EPOCHS : Z) (h : host) (args : argv) (s : strategy)
  : globals :=
  let n := num_replicas_in_sync h s in
  let BASE_LR := ((1 # 100) * inject_Z (4 * n) / inject_Z 16)%Q in
  let optimizer := SGD BASE_LR (inject_Z 10) in
  let backbone := keras_Model (KInput [640; 640; 3]%Z) backbone_outputs in
  let model :=
    compile (set_backbone_trainable (RetinaNet 20 "xywh" backbone) false)
            (Build_compile_args "focal" "smoothl1" optimizer) in
  let callbacks :=
    [TensorBoard "logs"; ReduceLROnPlateau 5; EarlyStopping 10;
     ModelCheckpoint "checkpoint/" true;
     PyCOCOCallback (eval_pipeline n) "xywh"] in
  Build_globals (getrlimit_NOFILE h) EPOCHS "checkpoint/"
    (parse_flags
       [DEFINE_string "weights_name" "weights_{epoch:02d}.h5"
          "Directory which will be used to store weight checkpoints.";
        DEFINE_string "tensorboard_path" "logs"
          "Directory which will be used to store tensorboard logs."] args)
    s 4 (4 * n) BASE_LR 640 [640; 640; 3]%Z
    (train_pipeline n) (eval_pipeline n) eval_resizing_layer augmenter_layer
    model optimizer callbacks
    (Build_fit_call model (train_pipeline n) (eval_pipeline n) 35 callbacks).

(** The first exception the oracle raises along a list of sites. *)
Fixpoint first_raise (o : oracle) (sites : list site) : option exn :=
  match sites with
  | [] => None
  | s :: rest =>
      match o s with
      | Some e => Some e
      | None => first_raise o rest
      end
  end.

(** The call sites of the script in the order it reaches them, before
    and after the [try] statement of lines 54-59. *)
Definition sites_before_try : list site :=
  [At 33 "resource.getrlimit"; At 34 "resource.setrlimit";
   At 39 "flags.DEFINE_string"; At 44 "flags.DEFINE_string"; At 50 "FLAGS"].

Definition sites_after_try : list site :=
  [At 64 "print"; At 65 "print"; At 69 "tfds.load"; At 73 "tfds.load";
   At 72 "Dataset.concatenate"; At 75 "tfds.load"; At 98 "Dataset.map";
   At 100 "dense_to_ragged_batch"; At 99 "Dataset.apply";
   At 103 "Dataset.shuffle"; At 104 "Dataset.prefetch"; At 106 "Dataset.map";
   At 111 "dense_to_ragged_batch"; At 110 "Dataset.apply";
   At 113 "Dataset.prefetch"; At 119 "layers.Resizing";
   At 125 "layers.RandomFlip"; At 126 "layers.JitteredResize";
   At 131 "layers.MixUp"; At 131 "layers.MaybeApply"; At 123 "layers.Augmenter";
   At 135 "Dataset.map"; At 136 "Dataset.map"; At 154 "Dataset.map";
   At 155 "Dataset.map"; At 170 "Dataset.map"; At 171 "Dataset.map";
   At 173 "strategy.scope"; At 174 "keras.layers.Input";
   At 176 "resnet.preprocess_input"; At 178 "keras.applications.ResNet50";
   At 183 "get_layer"; At 186 "keras.Model"; At 192 "keras_cv.models.RetinaNet";
   At 201 "backbone.trainable"; At 202 "tf.optimizers.SGD";
   At 173 "strategy.scope.__exit__"; At 204 "model.compile";
   At 211 "keras.callbacks.TensorBoard"; At 212 "keras.callbacks.ReduceLROnPlateau";
   At 213 "keras.callbacks.EarlyStopping"; At 214 "keras.callbacks.ModelCheckpoint";
   At 215 "PyCOCOCallback"; At 218 "model.fit"].

(** What a run of the script comes to: the first exception raised before
    the [try] statement, else what escapes the [try] statement, else the
    first exception raised after it, else the end state. *)
Definition script_outcome (EPOCHS : Z) (h : host) (args : argv) (o : oracle)
  : outcome globals :=
  match first_raise o sites_before_try with
  | Some e => Raise e
  | None =>
      match build_strategy o with
      | Raise e => Raise e
      | Ok s =>
          match first_raise o sites_after_try with
          | Some e => Raise e
          | None => Ok (final_globals EPOCHS h args s)
          end
      end
  end.

(** An oracle under which exactly one site raises. *)
Definition raise_only (s : site) (e : exn) : oracle :=
  fun t => if site_eqb t s then Some e else None.

(** An oracle under which nothing raises. *)
Definition quiet : oracle := fun _ => None.

(** The two call sites inside the [try] body. *)
Definition sites_in_try : list site :=
  [At 55 "TPUClusterResolver.connect"; At 56 "TPUStrategy"].

(** ** A small instance of the framework

    Enough of a framework to run the pipelines on: float32 scalars are
    rationals, an image is one number, preprocessing subtracts one, box
    conversion and the layers change nothing, and each split holds a
    handful of examples. *)
Definition toy_example (k : Z) : Z * (list (list Q) * list Z) :=
  (k, ([[1 # 10; 2 # 10; 5 # 10; 6 # 10]; [0; 0; 1; 1]]%Q, [k; (k + 1)%Z])).

Definition toy : Framework := {|
  f32 := Q;
  f32_lit := fun q => q;
  cast_int64 := inject_Z;
  RawImage := Z;
  Image := Z;
  cast_image := fun z => z;
  preprocess_input := fun z => (z - 1)%Z;
  convert_format := fun boxes _ _ _ => boxes;
  apply_layer := fun _ _ batch => Ok batch;
  tfds_data := fun name split _ =>
    if String.eqb split "test"
    then map toy_example [100; 101; 102; 103; 104]%Z
    else if String.eqb name "voc/2007"
         then map toy_example [1; 2; 3]%Z
         else map toy_example [11; 12; 13]%Z
|}.

Definition toy_host : host :=
  Build_host (1024, 4096)%Z (fun _ => 1%Z).

Definition toy_rng : rng :=
  Build_rng (fun _ n => rev (seq 0 n)) (fun _ _ => 0).

Definition ValueError : exn := mk_exn "ValueError" ["Exception"].
Definition UnicodeError : exn := mk_exn "UnicodeError" ["ValueError"; "Exception"].
Definition RuntimeError : exn := mk_exn "RuntimeError" ["Exception"].

(** The end state of the script on the small host, with no flag given and
    nothing raising. *)
Definition toy_end : globals :=
  final_globals 100 toy_host [] (TPUStrategy TPUClusterResolver_connect).

(** What one pass over its pipelines yields. *)
Definition toy_train_batches : list (value (tf := toy)) :=
  Eval vm_compute in
    match ds_run (tf := toy) toy_rng (g_train_ds toy_end) with
    | Ok out => out
    | Raise _ => []
    end.

Definition toy_eval_batches : list (value (tf := toy)) :=
  Eval vm_compute in
    match ds_run (tf := toy) toy_rng (g_eval_ds toy_end) with
    | Ok out => out
    | Raise _ => []
    end.

Definition toy_eval_samples : list (value (tf := toy)) :=
  Eval vm_compute in
    match ds_run (tf := toy) toy_rng (samples_of eval_source) with
    | Ok out => out
    | Raise _ => []
    end.

(** A gradient step that moves every weight it is given. *)
Definition toy_update (m : retina_net) (w : Z * Z) (batch : value (tf := toy))
  : Z * Z :=
  (fst w + 1, snd w + 1)%Z.

(** ** Batches taken apart, well-formed examples, delivered elements *)

Section MoreDefinitions.
Context {tf : Framework}.

(** A batch taken apart again: the per-image dictionaries it was made
    of. *)
Definition unbatch (v : value) : list value :=
  match v with
  | VBatch images bounding_boxes =>
      map (fun s => VSample (fst s) (snd s)) (combine images bounding_boxes)
  | _ => []
  end.

(** An example whose converted boxes are as many as its labels and have
    four coordinates each. *)
Definition boxes_well_formed (fmt : string) (inputs : Example) : Prop :=
  let image := preprocess_input (cast_image (ex_image inputs)) in
  let converted := convert_format (ex_objects_bbox inputs) image "rel_yxyx" fmt in
  List.length converted = List.length (ex_objects_label inputs) /\
  Forall (fun box => List.length box = 4) converted.

(** An element of a finished pipeline made from a group of examples: each
    example through [apply], the batch of them through layer [l], the
    result through [pad_fn]. *)
Definition delivered_from (l : layer) (G : Z) (group : list Example) (v : value)
  : Prop :=
  exists samples draw images boxes_out boxes classes,
    mapM (apply "xywh") group = Ok samples /\
    apply_layer l draw (map fst samples, map snd samples) = Ok (images, boxes_out) /\
    pad_fn G images boxes_out = Ok (images, (boxes, classes)) /\
    v = VLabeled images boxes classes.

End MoreDefinitions.

(** What the batching stage of its evaluation pipeline yields. *)
Definition toy_eval_stage : list (value (tf := toy)) :=
  Eval vm_compute in
    match ds_run (tf := toy) toy_rng (batches_of 4 eval_source) with
    | Ok out => out
    | Raise _ => []
    end.

(** * Properties *)

(** ** The error monad *)

Lemma bind_assoc {A B C} (c : M A) (k1 : A -> M B) (k2 : B -> M C) (o : oracle) :
  bind (bind c k1) k2 o = bind c (fun a => bind (k1 a) k2) o.
Proof. unfold bind. destruct (c o); reflexivity. Qed.

Lemma bind_call_raise {A B} (s : site) (v : A) (k : A -> M B) (o : oracle) (e : exn) :
  o s = Some e -> bind (call s v) k o = Raise e.
Proof. intros E. unfold bind, call. rewrite E. reflexivity. Qed.

Lemma bind_call_none {A B} (s : site) (v : A) (k : A -> M B) (o : oracle) :
  o s = None -> bind (call s v) k o = k v o.
Proof. intros E. unfold bind, call. rewrite E. reflexivity. Qed.

Lemma bind_ret {A B} (v : A) (k : A -> M B) (o : oracle) :
  bind (ret v) k o = k v o.
Proof. reflexivity. Qed.

Lemma bind_returns {A B} (c : M A) (k : A -> M B) (o : oracle) (a : A) :
  c o = Ok a -> bind c k o = k a o.
Proof. intros E. unfold bind. rewrite E. reflexivity. Qed.

Lemma bind_raises {A B} (c : M A) (k : A -> M B) (o : oracle) (e : exn) :
  c o = Raise e -> bind c k o = Raise e.
Proof. intros E. unfold bind. rewrite E. reflexivity. Qed.

(** One step of the script against [first_raise]: the site at the head
    raises, and so does the script, or both move on. *)
Ltac step_site :=
  lazymatch goal with
  | |- context [first_raise ?o (?s :: ?rest)] =>
      let E := fresh "E" in
      change (first_raise o (s :: rest))
        with (match o s with
              | Some e => Some e
              | None => first_raise o rest
              end);
      destruct (o s) eqn:E;
      [ exact (bind_call_raise _ _ _ _ _ E)
      | rewrite (bind_call_none _ _ _ _ E); cbv beta zeta iota ]
  end.

(** The script, followed call by call: it ends as [script_outcome] says,
    whatever the oracle. *)
Lemma script_run (E0 : Z) (h : host) (args : argv) (o : oracle) :
  script_body E0 h args o = script_outcome E0 h args o.
Proof.
  unfold script_body, script_outcome, sites_before_try, sites_after_try.
  do 5 step_site.
  change (first_raise o []) with (@None exn). cbv iota.
  destruct (build_strategy o) as [s|e] eqn:Hs;
    [rewrite (bind_returns _ _ _ _ Hs) | exact (bind_raises _ _ _ _ Hs)].
  cbv beta zeta.
  do 27 step_site.
  unfold with_scope. repeat rewrite bind_assoc.
  do 17 (step_site; repeat rewrite bind_assoc; rewrite ?bind_ret; cbv beta).
  reflexivity.
Qed.

(** ** Lists and tensors *)

Lemma resize_length {A : Type} (n : nat) (d : A) (l : list A) :
  List.length (resize n d l) = n.
Proof.
  unfold resize. rewrite length_firstn, length_app, repeat_length. lia.
Qed.

Lemma nth_resize {A : Type} (n : nat) (d x : A) (l : list A) (i : nat) :
  i < n ->
  nth i (resize n d l) x = if Nat.ltb i (List.length l) then nth i l x else d.
Proof.
  intros Hi. unfold resize. rewrite nth_firstn.
  destruct (Nat.ltb_spec i n) as [_|Hn]; [|lia].
  destruct (Nat.ltb_spec i (List.length l)) as [Hl|Hl].
  - apply app_nth1. exact Hl.
  - rewrite app_nth2 by lia. apply nth_repeat_lt. lia.
Qed.

Lemma nth_resize_same {A : Type} (n : nat) (d : A) (l : list A) (i : nat) :
  i < n -> nth i (resize n d l) d = nth i l d.
Proof.
  intros Hi. rewrite nth_resize by exact Hi.
  destruct (Nat.ltb_spec i (List.length l)) as [Hl|Hl]; [reflexivity|].
  symmetry. apply nth_overflow. exact Hl.
Qed.

Lemma Forall_take {A : Type} (P : A -> Prop) (n : nat) (l : list A) :
  Forall P l -> Forall P (firstn n l).
Proof.
  intros H. revert n. induction H as [|x l Hx Hl IH]; intros [|n]; simpl;
    constructor; auto.
Qed.

Lemma to_tensor_length {A : Type} (d : A) (b r c : nat) (rt : list (list (list A))) :
  List.length (to_tensor d b r c rt) = b.
Proof. unfold to_tensor. apply resize_length. Qed.

Lemma to_tensor_shape {A : Type} (d : A) (b r c : nat) (rt : list (list (list A))) :
  Forall (fun rows => List.length rows = r /\
                      Forall (fun row => List.length row = c) rows)
         (to_tensor d b r c rt).
Proof.
  unfold to_tensor, resize. apply Forall_take. apply Forall_app. split.
  - apply Forall_map. apply Forall_forall. intros rows _. split.
    + rewrite length_firstn, length_app, repeat_length. lia.
    + apply Forall_take. apply Forall_app. split.
      * apply Forall_map. apply Forall_forall. intros row _. apply resize_length.
      * apply Forall_forall. intros row Hin. apply repeat_spec in Hin. subst row.
        apply repeat_length.
  - apply Forall_forall. intros rows Hin. apply repeat_spec in Hin. subst rows.
    split; [apply repeat_length|].
    apply Forall_forall. intros row Hin. apply repeat_spec in Hin. subst row.
    apply repeat_length.
Qed.

(** Inside the shape asked for, the dense tensor holds the entry of the
    ragged tensor where there is one and the default value elsewhere. *)
Lemma to_tensor_entry {A : Type} (d : A) (b r c : nat) (rt : list (list (list A)))
  (i j k : nat) :
  i < b -> j < r -> k < c ->
  nth k (nth j (nth i (to_tensor d b r c rt) []) []) d =
  nth k (nth j (nth i rt []) []) d.
Proof.
  intros Hi Hj Hk. unfold to_tensor.
  rewrite nth_resize by exact Hi. rewrite length_map.
  destruct (Nat.ltb_spec i (List.length rt)) as [Hl|Hl].
  - rewrite (nth_indep _ [] (resize r (repeat d c) (map (resize c d) []))).
    2:{ rewrite length_map. exact Hl. }
    rewrite (map_nth (fun rows => resize r (repeat d c) (map (resize c d) rows))).
    set (rows := nth i rt []).
    rewrite nth_resize by exact Hj. rewrite length_map.
    destruct (Nat.ltb_spec j (List.length rows)) as [Hr|Hr].
    + rewrite (nth_indep _ [] (resize c d [])).
      2:{ rewrite length_map. exact Hr. }
      rewrite (map_nth (resize c d)).
      apply nth_resize_same. exact Hk.
    + rewrite (nth_overflow rows) by exact Hr.
      rewrite nth_repeat_lt by exact Hk. destruct k; reflexivity.
  - rewrite (nth_overflow rt) by exact Hl.
    rewrite nth_repeat_lt by exact Hj. rewrite nth_repeat_lt by exact Hk.
    destruct j; destruct k; reflexivity.
Qed.

Lemma to_tensor_has_shape {A : Type} (d : A) (b r c : nat)
  (rt : list (list (list A))) :
  has_shape3 b r c (to_tensor d b r c rt).
Proof.
  split; [apply to_tensor_length | apply to_tensor_shape].
Qed.

Lemma mapM_ok_map {A B : Type} (f : A -> outcome B) (g : A -> B) (xs : list A) :
  Forall (fun x => f x = Ok (g x)) xs -> mapM f xs = Ok (map g xs).
Proof.
  induction 1 as [|x xs Hx _ IH]; simpl; [reflexivity|].
  rewrite Hx. simpl. rewrite IH. reflexivity.
Qed.

Lemma mapM_ok_Forall2 {A B : Type} (f : A -> outcome B) (xs : list A) (ys : list B) :
  mapM f xs = Ok ys -> Forall2 (fun x y => f x = Ok y) xs ys.
Proof.
  revert ys. induction xs as [|x xs IH]; simpl; intros ys H.
  - injection H as <-. constructor.
  - destruct (f x) as [y|e] eqn:Hx; simpl in H; [|discriminate H].
    destruct (mapM f xs) as [ys'|e]; simpl in H; [|discriminate H].
    injection H as <-. constructor; [exact Hx | apply IH; reflexivity].
Qed.

Lemma mapM_from_ok_Forall2 {A B : Type} (f : nat -> A -> outcome B) (i : nat)
  (xs : list A) (ys : list B) :
  mapM_from i f xs = Ok ys -> Forall2 (fun x y => exists j, f j x = Ok y) xs ys.
Proof.
  revert i ys. induction xs as [|x xs IH]; simpl; intros i ys H.
  - injection H as <-. constructor.
  - destruct (f i x) as [y|e] eqn:Hx; simpl in H; [|discriminate H].
    destruct (mapM_from (S i) f xs) as [ys'|e] eqn:Hxs; simpl in H; [|discriminate H].
    injection H as <-. constructor; [exists i; exact Hx | apply (IH (S i)); exact Hxs].
Qed.

(** What holds of every input of a stage that maps [f] holds, through
    [f], of every output. *)
Lemma Forall2_Forall_step {A B : Type} (R : A -> B -> Prop) (P : A -> Prop)
  (Q : B -> Prop) (xs : list A) (ys : list B) :
  Forall2 R xs ys -> Forall P xs ->
  (forall x y, P x -> R x y -> Q y) -> Forall Q ys.
Proof.
  intros H. induction H as [|x y xs ys Hxy _ IH]; intros HP HQ; constructor.
  - apply (HQ x y); [|exact Hxy]. inversion HP; assumption.
  - apply IH; [|exact HQ]. inversion HP; assumption.
Qed.

Lemma pick_In {A : Type} (order : list nat) (xs : list A) (x : A) :
  In x (pick order xs) -> In x xs.
Proof.
  unfold pick. intros H. apply in_flat_map in H as (i & _ & H).
  destruct (nth_error xs i) as [y|] eqn:E; simpl in H; [|contradiction].
  destruct H as [<-|[]]. apply (nth_error_In _ _ E).
Qed.

Lemma Forall_pick {A : Type} (P : A -> Prop) (order : list nat) (xs : list A) :
  Forall P xs -> Forall P (pick order xs).
Proof.
  intros H. apply Forall_forall. intros x Hx.
  apply pick_In in Hx. revert x Hx. apply Forall_forall. exact H.
Qed.

Lemma Forall_drop {A : Type} (P : A -> Prop) (n : nat) (l : list A) :
  Forall P l -> Forall P (skipn n l).
Proof.
  intros H. revert n. induction H as [|x l Hx Hl IH]; intros [|n]; simpl;
    try constructor; auto.
Qed.

(** With [drop_remainder] set, every group has exactly [n] elements, and
    they come from the stream. *)
Lemma chunks_drop_remainder {A : Type} (P : A -> Prop) (fuel n : nat) (xs : list A) :
  Forall P xs ->
  Forall (fun group => List.length group = n /\ Forall P group)
         (chunks fuel n true xs).
Proof.
  revert xs. induction fuel as [|fuel IH]; intros xs HP; simpl; [constructor|].
  destruct xs as [|x xs']; [constructor|].
  destruct (Nat.ltb_spec (List.length (x :: xs')) n) as [Hlt|Hge]; [constructor|].
  constructor.
  - split.
    + apply firstn_length_le. exact Hge.
    + apply Forall_take. exact HP.
  - apply IH. apply Forall_drop. exact HP.
Qed.

(** With enough fuel, the groups are the stream cut into pieces: nothing
    but a short remainder is lost. *)
Lemma chunks_concat {A : Type} (fuel n : nat) (drop : bool) (xs : list A) :
  0 < n -> List.length xs <= fuel ->
  exists rest,
    xs = List.concat (chunks fuel n drop xs) ++ rest /\
    List.length rest < n /\ (drop = false -> rest = []).
Proof.
  intros Hn. revert xs. induction fuel as [|fuel IH]; intros xs Hf.
  - destruct xs; [|simpl in Hf; lia]. exists []. simpl. repeat split; auto.
  - simpl. destruct xs as [|x xs']; [exists []; simpl; repeat split; auto|].
    destruct (Nat.ltb_spec (List.length (x :: xs')) n) as [Hlt|Hge].
    + destruct drop.
      * exists (x :: xs'). simpl. repeat split; [exact Hlt | discriminate].
      * exists []. split; [|split; [exact Hn | reflexivity]].
        cbn [List.concat]. rewrite !app_nil_r. reflexivity.
    + destruct (IH (skipn n (x :: xs'))) as (rest & Heq & Hlen & Hdrop).
      { rewrite length_skipn. lia. }
      exists rest. split; [|split; assumption].
      cbn [List.concat]. rewrite <- app_assoc, <- Heq.
      symmetry. apply firstn_skipn.
Qed.

Section PipelineFacts.
Context {tf : Framework}.

Lemma yields_weaken (r : rng) (d : dataset) (P Q : value -> Prop) :
  (forall v, P v -> Q v) -> yields r d P -> yields r d Q.
Proof.
  intros HPQ H out Hrun. apply (Forall_impl Q HPQ). apply H. exact Hrun.
Qed.

Lemma yields_tfds_load (r : rng) (name split : string) (with_info shuffle_files : bool) :
  yields r (tfds_load name split with_info shuffle_files)
    (fun v => exists t, In t (tfds_data name split shuffle_files) /\
                        v = VExample (example_of t)).
Proof.
  intros out Hrun. simpl in Hrun. injection Hrun as <-.
  apply Forall_map. apply Forall_forall. intros t Ht. exists t. split; [exact Ht | reflexivity].
Qed.

Lemma yields_concatenate (r : rng) (a b : dataset) (P Q : value -> Prop) :
  yields r a P -> yields r b Q -> yields r (concatenate a b) (fun v => P v \/ Q v).
Proof.
  intros Ha Hb out Hrun. simpl in Hrun.
  destruct (ds_run r a) as [xs|e] eqn:Hxs; simpl in Hrun; [|discriminate Hrun].
  destruct (ds_run r b) as [ys|e] eqn:Hys; simpl in Hrun; [|discriminate Hrun].
  injection Hrun as <-. apply Forall_app. split.
  - apply (Forall_impl _ (fun v H => or_introl H)). apply Ha. exact Hxs.
  - apply (Forall_impl _ (fun v H => or_intror H)). apply Hb. exact Hys.
Qed.

Lemma yields_map (r : rng) (d : dataset) (f : map_fn) (n : Z) (P : value -> Prop) :
  yields r d P ->
  yields r (ds_map d f n)
    (fun y => exists x draw, P x /\ apply_map_fn f draw x = Ok y).
Proof.
  intros Hd out Hrun. simpl in Hrun.
  destruct (ds_run r d) as [xs|e] eqn:Hxs; simpl in Hrun; [|discriminate Hrun].
  apply mapM_from_ok_Forall2 in Hrun.
  apply (Forall2_Forall_step _ P _ _ _ Hrun (Hd xs Hxs)).
  intros x y HP (j & Hj). exists x, (draw_at r f j). split; assumption.
Qed.

Lemma yields_batch (r : rng) (d : dataset) (n : Z) (P : value -> Prop) :
  yields r d P ->
  yields r (dense_to_ragged_batch d n true)
    (fun y => exists group,
       (0 < n)%Z /\ List.length group = Z.to_nat n /\ Forall P group /\
       ragged_batch group = Ok y).
Proof.
  intros Hd out Hrun. simpl in Hrun.
  destruct (ds_run r d) as [xs|e] eqn:Hxs; simpl in Hrun; [|discriminate Hrun].
  destruct (Z.leb_spec n 0) as [Hn|Hn]; [discriminate Hrun|].
  apply mapM_ok_Forall2 in Hrun.
  apply (Forall2_Forall_step _ _ _ _ _ Hrun
           (chunks_drop_remainder P _ (Z.to_nat n) xs (Hd xs Hxs))).
  intros group y (Hlen & HP) Hy. exists group. repeat split; assumption.
Qed.

Lemma yields_shuffle (r : rng) (d : dataset) (b : Z) (P : value -> Prop) :
  yields r d P -> yields r (shuffle d b) P.
Proof.
  intros Hd out Hrun. simpl in Hrun.
  destruct (ds_run r d) as [xs|e] eqn:Hxs; simpl in Hrun; [|discriminate Hrun].
  injection Hrun as <-. apply Forall_pick. apply Hd. exact Hxs.
Qed.

Lemma yields_prefetch (r : rng) (d : dataset) (b : Z) (P : value -> Prop) :
  yields r d P -> yields r (prefetch d b) P.
Proof. intros Hd out Hrun. apply Hd. exact Hrun. Qed.

(** *** [apply] and [pad_fn] *)

Lemma zip_rows_length {A : Type} (a b : list (list A)) :
  List.length a = List.length b -> List.length (zip_rows a b) = List.length a.
Proof.
  revert b. induction a as [|x a IH]; intros [|y b] H; simpl in *;
    try reflexivity; try discriminate H.
  f_equal. apply IH. lia.
Qed.

Lemma zip_rows_nth_error {A : Type} (a b : list (list A)) (i : nat) (row : list A) :
  nth_error (zip_rows a b) i = Some row ->
  exists x y, nth_error a i = Some x /\ nth_error b i = Some y /\ row = x ++ y.
Proof.
  revert b i. induction a as [|x a IH]; intros [|y b] [|i] H; simpl in *;
    try discriminate H.
  - injection H as <-. exists x, y. repeat split.
  - apply IH. exact H.
Qed.

(** What [apply] returns: the preprocessed image, and one row per object,
    made of the converted box followed by the class label as float32. *)
Lemma apply_spec (fmt : string) (inputs : Example) (image : Image)
  (bounding_boxes : list (list f32)) :
  apply fmt inputs = Ok (image, bounding_boxes) ->
  image = preprocess_input (cast_image (ex_image inputs)) /\
  List.length bounding_boxes = List.length (ex_objects_label inputs) /\
  forall i row,
    nth_error bounding_boxes i = Some row ->
    exists box label,
      nth_error (convert_format (ex_objects_bbox inputs) image "rel_yxyx" fmt) i
        = Some box /\
      nth_error (ex_objects_label inputs) i = Some label /\
      row = box ++ [cast_int64 label].
Proof.
  unfold apply, concat_last, expand_dims_1. intros H.
  destruct (Nat.eqb_spec
              (List.length (convert_format (ex_objects_bbox inputs)
                              (preprocess_input (cast_image (ex_image inputs)))
                              "rel_yxyx" fmt))
              (List.length (map (fun c => [c])
                              (map cast_int64 (ex_objects_label inputs)))))
    as [Hlen|Hlen]; simpl in H; [|discriminate H].
  injection H as <- <-. split; [reflexivity|]. split.
  - rewrite zip_rows_length by exact Hlen. rewrite Hlen, !length_map. reflexivity.
  - intros i row Hrow. apply zip_rows_nth_error in Hrow as (box & y & Hbox & Hy & ->).
    rewrite map_map, nth_error_map in Hy.
    destruct (nth_error (ex_objects_label inputs) i) as [label|] eqn:Hl;
      simpl in Hy; [|discriminate Hy].
    injection Hy as <-. exists box, label. repeat split; assumption.
Qed.

Lemma index_4_ok (d : f32) (b r : nat) (t : list (list (list f32))) :
  has_shape3 b r 5 t ->
  index_4 t = Ok (map (map (fun row => nth 4 row d)) t).
Proof.
  intros [_ Hs]. unfold index_4. apply mapM_ok_map.
  apply (Forall_impl _ (P := has_shape2 r 5)); [|exact Hs].
  intros rows [_ Hrows]. apply mapM_ok_map.
  apply (Forall_impl _ (P := fun row => List.length row = 5)); [|exact Hrows].
  intros row Hrow. rewrite (nth_error_nth' row d) by lia. reflexivity.
Qed.

(** [pad_fn] never raises, and this is what it returns. *)
Lemma pad_fn_returns (g : Z) (image : list Image) (boxes : list (list (list f32))) :
  pad_fn g image boxes =
  Ok (image,
      (slice_to_4 (to_tensor (f32_lit (-1)) (Z.to_nat g) 32 5 boxes),
       map (map (fun row => nth 4 row (f32_lit (-1))))
           (to_tensor (f32_lit (-1)) (Z.to_nat g) 32 5 boxes))).
Proof.
  unfold pad_fn.
  rewrite (index_4_ok (f32_lit (-1)) (Z.to_nat g) 32)
    by apply to_tensor_has_shape.
  reflexivity.
Qed.

Lemma slice_to_4_shape (b r : nat) (t : list (list (list f32))) :
  has_shape3 b r 5 t -> has_shape3 b r 4 (slice_to_4 t).
Proof.
  intros [Hb Hs]. unfold slice_to_4. split; [rewrite length_map; exact Hb|].
  apply Forall_map. apply (Forall_impl _ (P := has_shape2 r 5)); [|exact Hs].
  intros rows [Hr Hrows]. split; [rewrite length_map; exact Hr|].
  apply Forall_map. apply (Forall_impl _ (P := fun row => List.length row = 5));
    [|exact Hrows].
  intros row Hrow. rewrite length_firstn. lia.
Qed.

Lemma column_shape {B : Type} (f : list f32 -> B) (b r c : nat)
  (t : list (list (list f32))) :
  has_shape3 b r c t -> has_shape2 b r (map (map f) t).
Proof.
  intros [Hb Hs]. split; [rewrite length_map; exact Hb|].
  apply Forall_map. apply (Forall_impl _ (P := has_shape2 r c)); [|exact Hs].
  intros rows [Hr _]. rewrite length_map. exact Hr.
Qed.

Lemma nth_map_default {A B : Type} (f : A -> B) (l : list A) (i : nat)
  (dA : A) (dB : B) :
  f dA = dB -> nth i (map f l) dB = f (nth i l dA).
Proof. intros <-. apply map_nth. Qed.

Lemma slice_to_4_entry (d : f32) (t : list (list (list f32))) (i j k : nat) :
  k < 4 ->
  nth k (nth j (nth i (slice_to_4 t) []) []) d = nth k (nth j (nth i t []) []) d.
Proof.
  intros Hk. unfold slice_to_4.
  rewrite (nth_map_default (map (@firstn f32 4)) t i [] []) by reflexivity.
  rewrite (nth_map_default (@firstn f32 4) _ j [] []) by reflexivity.
  rewrite nth_firstn. destruct (Nat.ltb_spec k 4); [reflexivity | lia].
Qed.

Lemma column_4_entry (d : f32) (t : list (list (list f32))) (i j : nat) :
  nth j (nth i (map (map (fun row => nth 4 row d)) t) []) d =
  nth 4 (nth j (nth i t []) []) d.
Proof.
  rewrite (nth_map_default (map (fun row : list f32 => nth 4 row d)) t i [] [])
    by reflexivity.
  rewrite (nth_map_default (fun row : list f32 => nth 4 row d) _ j [] d)
    by reflexivity.
  reflexivity.
Qed.

End PipelineFacts.

(** ** The strategy and the exceptions of the script *)

Lemma site_eqb_eq (s t : site) : site_eqb s t = true <-> s = t.
Proof.
  destruct s as [l c], t as [l' c']. unfold site_eqb. simpl.
  rewrite andb_true_iff, Nat.eqb_eq, String.eqb_eq. split.
  - intros [-> ->]. reflexivity.
  - intros H. injection H as -> ->. split; reflexivity.
Qed.

Lemma raise_only_at (s : site) (e : exn) : raise_only s e s = Some e.
Proof.
  unfold raise_only. replace (site_eqb s s) with true; [reflexivity|].
  symmetry. apply site_eqb_eq. reflexivity.
Qed.

Lemma first_raise_absent (s : site) (e : exn) (l : list site) :
  existsb (site_eqb s) l = false -> first_raise (raise_only s e) l = None.
Proof.
  induction l as [|t l IH]; simpl; intros H; [reflexivity|].
  apply orb_false_iff in H as [Ht Hl]. unfold raise_only at 1.
  replace (site_eqb t s) with false.
  - apply IH. exact Hl.
  - symmetry. destruct (site_eqb t s) eqn:E; [|reflexivity].
    apply site_eqb_eq in E. subst t.
    rewrite <- Ht. symmetry. apply site_eqb_eq. reflexivity.
Qed.

Lemma first_raise_present (s : site) (e : exn) (l : list site) :
  In s l -> first_raise (raise_only s e) l = Some e.
Proof.
  induction l as [|t l IH]; simpl; intros H; [contradiction|].
  unfold raise_only at 1. destruct (site_eqb t s) eqn:E; [reflexivity|].
  destruct H as [->|H]; [|apply IH; exact H].
  assert (site_eqb s s = true) as Hs by (apply site_eqb_eq; reflexivity).
  rewrite Hs in E. discriminate E.
Qed.

Lemma build_strategy_cases (o : oracle) :
  build_strategy o =
  match o (At 55 "TPUClusterResolver.connect") with
  | Some e =>
      if isinstance e "ValueError"
      then call (At 59 "MirroredStrategy") MirroredStrategy o
      else Raise e
  | None =>
      match o (At 56 "TPUStrategy") with
      | Some e =>
          if isinstance e "ValueError"
          then call (At 59 "MirroredStrategy") MirroredStrategy o
          else Raise e
      | None => Ok (TPUStrategy TPUClusterResolver_connect)
      end
  end.
Proof.
  unfold build_strategy, try_except, bind, call.
  destruct (o (At 55 "TPUClusterResolver.connect")); [reflexivity|].
  destruct (o (At 56 "TPUStrategy")); reflexivity.
Qed.

(** C1. The [try] statement of lines 54-59 is the only place where the
    script handles an exception.  When [TPUClusterResolver.connect] raises
    a [ValueError], the strategy is whatever [MirroredStrategy()] gives;
    when it returns, the script goes on to build [TPUStrategy] on the
    resolver, under the same handler, and that is the strategy when the
    constructor returns; an exception of the [try] body that is not a
    [ValueError] escapes.  A run of the whole script is [script_outcome]:
    the first exception raised at a call site outside the [try] statement
    ends the script with that exception, whatever its class, and so does a
    single exception other than [ValueError] raised anywhere. *)
Theorem strategy_fallback_only_handler (h : host) (args : argv) (o : oracle) :
  let connect := At 55 "TPUClusterResolver.connect" in
  let mirrored := call (At 59 "MirroredStrategy") MirroredStrategy in
  (forall e, o connect = Some e -> isinstance e "ValueError" = true ->
             build_strategy o = mirrored o) /\
  (o connect = None ->
   build_strategy o =
   try_except (call (At 56 "TPUStrategy") (TPUStrategy TPUClusterResolver_connect))
              "ValueError" mirrored o) /\
  (o connect = None -> o (At 56 "TPUStrategy") = None ->
   build_strategy o = Ok (TPUStrategy TPUClusterResolver_connect)) /\
  (forall e, first_raise o sites_in_try = Some e ->
             isinstance e "ValueError" = false ->
             build_strategy o = Raise e) /\
  script h args o = script_outcome 100 h args o /\
  (forall e, first_raise o sites_before_try = Some e ->
             script h args o = Raise e) /\
  (forall s e, first_raise o sites_before_try = None ->
               build_strategy o = Ok s ->
               first_raise o sites_after_try = Some e ->
               script h args o = Raise e) /\
  (forall s e, In s (sites_before_try ++ sites_in_try ++ sites_after_try) ->
               isinstance e "ValueError" = false ->
               script h args (raise_only s e) = Raise e) /\
  (forall s e, In s (sites_before_try ++ sites_after_try) ->
               script h args (raise_only s e) = Raise e).
Proof.
  intros connect mirrored. subst connect mirrored.
  pose proof (build_strategy_cases o) as Hb.
  assert (forall s e, In s (sites_before_try ++ sites_after_try) ->
                      script h args (raise_only s e) = Raise e) as Houtside.
  { intros s e Hin. unfold script. rewrite script_run. unfold script_outcome.
    apply in_app_or in Hin as [Hin|Hin].
    - rewrite (first_raise_present s e _ Hin). reflexivity.
    - assert (existsb (site_eqb s) (sites_before_try ++ sites_in_try) = false) as Hout.
      { revert s Hin. apply Forall_forall. vm_compute.
        repeat (constructor; [reflexivity|]). constructor. }
      rewrite existsb_app in Hout. apply orb_false_iff in Hout as [Hbefore Htry].
      rewrite (first_raise_absent s e _ Hbefore).
      rewrite build_strategy_cases.
      simpl in Htry. apply orb_false_iff in Htry as [H55 Htry].
      apply orb_false_iff in Htry as [H56 _].
      unfold raise_only at 1.
      replace (site_eqb (At 55 "TPUClusterResolver.connect") s) with false.
      2:{ symmetry. destruct (site_eqb (At 55 "TPUClusterResolver.connect") s) eqn:E;
            [|reflexivity].
          apply site_eqb_eq in E. subst s. exact H55. }
      unfold raise_only at 1.
      replace (site_eqb (At 56 "TPUStrategy") s) with false.
      2:{ symmetry. destruct (site_eqb (At 56 "TPUStrategy") s) eqn:E; [|reflexivity].
          apply site_eqb_eq in E. subst s. exact H56. }
      rewrite (first_raise_present s e _ Hin). reflexivity. }
  repeat split.
  - intros e He Hv. rewrite Hb, He, Hv. reflexivity.
  - intros He. rewrite Hb, He. unfold try_except, call.
    destruct (o (At 56 "TPUStrategy")); reflexivity.
  - intros He He'. rewrite Hb, He, He'. reflexivity.
  - intros e Hfirst Hv. rewrite Hb. simpl in Hfirst.
    destruct (o (At 55 "TPUClusterResolver.connect")) as [e1|].
    + injection Hfirst as ->. rewrite Hv. reflexivity.
    + destruct (o (At 56 "TPUStrategy")) as [e2|]; [|discriminate Hfirst].
      injection Hfirst as ->. rewrite Hv. reflexivity.
  - apply script_run.
  - intros e He. unfold script. rewrite script_run. unfold script_outcome.
    rewrite He. reflexivity.
  - intros s e Hbefore Hs He. unfold script. rewrite script_run.
    unfold script_outcome. rewrite Hbefore, Hs, He. reflexivity.
  - intros s e Hin Hv.
    apply in_app_or in Hin as [Hin|Hin];
      [apply Houtside; apply in_or_app; left; exact Hin|].
    apply in_app_or in Hin as [Hin|Hin];
      [|apply Houtside; apply in_or_app; right; exact Hin].
    unfold script. rewrite script_run. unfold script_outcome.
    assert (first_raise (raise_only s e) sites_before_try = None) as Hbefore.
    { destruct Hin as [<-|[<-|[]]]; reflexivity. }
    rewrite Hbefore, build_strategy_cases.
    destruct Hin as [<-|[<-|[]]]; cbn; rewrite Hv; reflexivity.
  - exact Houtside.
Qed.

(** ** The pipelines of a run *)

Section RunFacts.
Context {tf : Framework}.

(** A run that reaches its end leaves [final_globals]. *)
Lemma script_ok (E0 : Z) (h : host) (args : argv) (o : oracle) (g : globals) :
  script_body E0 h args o = Ok g ->
  build_strategy o = Ok (g_strategy g) /\
  g = final_globals E0 h args (g_strategy g).
Proof.
  rewrite script_run. unfold script_outcome.
  destruct (first_raise o sites_before_try); [discriminate|].
  destruct (build_strategy o) as [s|e]; [|discriminate].
  destruct (first_raise o sites_after_try); [discriminate|].
  intros H. injection H as <-. split; reflexivity.
Qed.

Lemma yields_anything (r : rng) (d : dataset) : yields r d (fun _ => True).
Proof.
  intros out _. apply Forall_forall. intros v _. exact I.
Qed.

Lemma apply_pad_fn_inv (G : Z) (draw : nat) (x y : value) :
  apply_map_fn (pad_fn_closure G) draw x = Ok y ->
  exists image boxes gt_boxes gt_classes,
    x = VTuple image boxes /\
    pad_fn G image boxes = Ok (image, (gt_boxes, gt_classes)) /\
    y = VLabeled image gt_boxes gt_classes.
Proof.
  destruct x as [inputs|image bbs|images bbs|image boxes|image boxes classes];
    simpl; try discriminate.
  rewrite pad_fn_returns. simpl. intros H. injection H as <-.
  exists image, boxes. eexists. eexists.
  split; [reflexivity | split; [apply pad_fn_returns | reflexivity]].
Qed.

(** What [pad_fn] makes of a ragged tensor of boxes: a dense tensor of
    shape [[g, 32, 5]] that agrees with the ragged one wherever the ragged
    one has an entry and holds [-1.0] elsewhere, cut into its first four
    columns and its fifth. *)
Lemma pad_fn_spec (G : Z) (image : list Image) (boxes : list (list (list f32))) :
  let b := Z.to_nat G in
  let pad := f32_lit (-1) in
  let dense := to_tensor pad b 32 5 boxes in
  exists gt_boxes gt_classes,
    pad_fn G image boxes = Ok (image, (gt_boxes, gt_classes)) /\
    has_shape3 b 32 5 dense /\
    (forall i j k, i < b -> j < 32 -> k < 5 ->
       nth k (nth j (nth i dense []) []) pad
       = nth k (nth j (nth i boxes []) []) pad) /\
    has_shape3 b 32 4 gt_boxes /\
    has_shape2 b 32 gt_classes /\
    (forall i j k, k < 4 ->
       nth k (nth j (nth i gt_boxes []) []) pad
       = nth k (nth j (nth i dense []) []) pad) /\
    (forall i j,
       nth j (nth i gt_classes []) pad = nth 4 (nth j (nth i dense []) []) pad).
Proof.
  intros b pad dense. eexists _, _. split; [apply pad_fn_returns|].
  fold pad b dense.
  split; [apply to_tensor_has_shape|].
  split; [intros i j k; apply to_tensor_entry|].
  split; [apply slice_to_4_shape; apply to_tensor_has_shape|].
  split; [apply (column_shape _ b 32 5); apply to_tensor_has_shape|].
  split; [intros i j k; apply slice_to_4_entry | intros i j; apply column_4_entry].
Qed.

Lemma ragged_batch_inv (group : list value) (y : value) :
  ragged_batch group = Ok y ->
  exists images bounding_boxes,
    y = VBatch images bounding_boxes /\
    List.length images = List.length group /\
    List.length bounding_boxes = List.length group.
Proof.
  unfold ragged_batch. intros H.
  destruct (mapM _ group) as [samples|e] eqn:Hs; simpl in H; [|discriminate H].
  injection H as <-. apply mapM_ok_Forall2, Forall2_length in Hs.
  eexists _, _. split; [reflexivity|]. rewrite !length_map. split; congruence.
Qed.

(** C2. In a run that reaches its end, every element of the train and of
    the eval pipeline comes out of [pad_fn]: the ragged boxes are made a
    dense tensor of shape [[GLOBAL_BATCH_SIZE, 32, 5]], padded with [-1.0]
    or truncated, whose first four columns are returned as ["boxes"] and
    whose fifth as ["classes"]; and the batching stage of both pipelines
    has [drop_remainder=True], so that each of its batches holds exactly
    [GLOBAL_BATCH_SIZE] examples. *)
Theorem pad_fn_fixed_shape (h : host) (args : argv) (o : oracle) (g : globals) :
  script h args o = Ok g ->
  let G := g_GLOBAL_BATCH_SIZE g in
  let b := Z.to_nat G in
  let pad := f32_lit (-1) in
  (forall r ds, ds = g_train_ds g \/ ds = g_eval_ds g ->
     yields r ds (fun v =>
       exists image boxes gt_boxes gt_classes,
         v = VLabeled image gt_boxes gt_classes /\
         pad_fn G image boxes = Ok (image, (gt_boxes, gt_classes)))) /\
  (forall image boxes,
     let dense := to_tensor pad b 32 5 boxes in
     exists gt_boxes gt_classes,
       pad_fn G image boxes = Ok (image, (gt_boxes, gt_classes)) /\
       has_shape3 b 32 5 dense /\
       (forall i j k, i < b -> j < 32 -> k < 5 ->
          nth k (nth j (nth i dense []) []) pad
          = nth k (nth j (nth i boxes []) []) pad) /\
       has_shape3 b 32 4 gt_boxes /\
       has_shape2 b 32 gt_classes /\
       (forall i j k, k < 4 ->
          nth k (nth j (nth i gt_boxes []) []) pad
          = nth k (nth j (nth i dense []) []) pad) /\
       (forall i j,
          nth j (nth i gt_classes []) pad
          = nth 4 (nth j (nth i dense []) []) pad)) /\
  (exists n,
     g_train_ds g
     = labeled_by G augmenter_layer
         (prefetch (shuffle (dense_to_ragged_batch (samples_of train_source) G true)
                            (8 * n)) AUTOTUNE) /\
     g_eval_ds g
     = labeled_by G eval_resizing_layer
         (prefetch (dense_to_ragged_batch (samples_of eval_source) G true) AUTOTUNE)) /\
  (forall r source,
     yields r (dense_to_ragged_batch (samples_of source) G true) (fun v =>
       exists images bounding_boxes,
         v = VBatch images bounding_boxes /\
         List.length images = b /\ List.length bounding_boxes = b)).
Proof.
  intros H G b pad. apply script_ok in H as [_ Hg].
  assert (G = (4 * num_replicas_in_sync h (g_strategy g))%Z) as HG
    by (subst G; rewrite Hg; reflexivity).
  split; [|split; [|split]].
  - intros r ds Hds.
    assert (exists d, ds = ds_map d (pad_fn_closure G) AUTOTUNE) as [d ->].
    { destruct Hds as [-> | ->]; rewrite Hg, HG; eexists; reflexivity. }
    eapply yields_weaken; cycle 1.
    { apply yields_map. apply yields_anything. }
    cbv beta. intros v (x & draw & _ & Hx).
    apply apply_pad_fn_inv in Hx as (image & boxes & gb & gc & _ & Hp & ->).
    exists image, boxes, gb, gc. split; [reflexivity | exact Hp].
  - intros image boxes. apply pad_fn_spec.
  - exists (num_replicas_in_sync h (g_strategy g)).
    rewrite Hg, HG. split; reflexivity.
  - intros r source.
    eapply yields_weaken; cycle 1.
    { apply yields_batch. apply yields_anything. }
    cbv beta. intros v (group & _ & Hlen & _ & Hy).
    apply ragged_batch_inv in Hy as (images & bbs & -> & Hi & Hb).
    exists images, bbs. split; [reflexivity|]. subst b. split; congruence.
Qed.

End RunFacts.

Section StageFacts.
Context {tf : Framework}.

Lemma apply_unpackage_inv (fmt : string) (draw : nat) (x y : value) :
  apply_map_fn (unpackage_inputs_apply fmt) draw x = Ok y ->
  exists inputs image bounding_boxes,
    x = VExample inputs /\
    apply fmt inputs = Ok (image, bounding_boxes) /\
    y = VSample image bounding_boxes.
Proof.
  destruct x as [inputs|image bbs|images bbs|image boxes|image boxes classes];
    simpl; try discriminate.
  destruct (apply fmt inputs) as [[image bbs]|e] eqn:Ha; simpl; [|discriminate].
  intros H. injection H as <-. exists inputs, image, bbs. repeat split.
  exact Ha.
Qed.

Lemma apply_layer_inv (l : layer) (draw : nat) (x y : value) :
  apply_map_fn (layer_call l) draw x = Ok y ->
  exists batch_in boxes_in images boxes_out,
    x = VBatch batch_in boxes_in /\
    apply_layer l draw (batch_in, boxes_in) = Ok (images, boxes_out) /\
    y = VBatch images boxes_out.
Proof.
  destruct x as [inputs|image bbs|images bbs|image boxes|image boxes classes];
    simpl; try discriminate.
  destruct (apply_layer l draw (images, bbs)) as [[images' bbs']|e] eqn:Ha;
    simpl; [|discriminate].
  intros H. injection H as <-. exists images, bbs, images', bbs'. repeat split.
  exact Ha.
Qed.

Lemma apply_tuple_inv (draw : nat) (x y : value) :
  apply_map_fn unpackage_inputs_tuple draw x = Ok y ->
  exists images bounding_boxes,
    x = VBatch images bounding_boxes /\ y = VTuple images bounding_boxes.
Proof.
  destruct x as [inputs|image bbs|images bbs|image boxes|image boxes classes];
    simpl; try discriminate.
  intros H. injection H as <-. exists images, bbs. split; reflexivity.
Qed.

Lemma ragged_batch_images (R : Image -> Prop) (group : list value) (y : value) :
  Forall (fun v => exists image bbs, v = VSample image bbs /\ R image) group ->
  ragged_batch group = Ok y ->
  exists images bounding_boxes,
    y = VBatch images bounding_boxes /\
    List.length images = List.length group /\ Forall R images.
Proof.
  unfold ragged_batch. intros HR H.
  destruct (mapM _ group) as [samples|e] eqn:Hs; simpl in H; [|discriminate H].
  injection H as <-. apply mapM_ok_Forall2 in Hs.
  eexists _, _. split; [reflexivity|]. split.
  - rewrite length_map. symmetry. apply (Forall2_length Hs).
  - apply Forall_map.
    apply (Forall2_Forall_step _ _ _ _ _ Hs HR).
    intros x s (image & bbs & -> & Him) Hx. injection Hx as <-. exact Him.
Qed.

(** The per-image stage: each element is [apply] of an example, so its
    image is the preprocessed cast of a raw image. *)
Lemma yields_samples (r : rng) (source : dataset) (S : RawImage -> Prop) :
  yields r source (fun v => exists inputs, v = VExample inputs /\ S (ex_image inputs)) ->
  yields r (samples_of source) (fun v =>
    exists image bbs, v = VSample image bbs /\
      exists raw, S raw /\ image = preprocess_input (cast_image raw)).
Proof.
  intros Hsrc. eapply yields_weaken; cycle 1.
  { apply yields_map. exact Hsrc. }
  cbv beta. intros v (x & draw & (inputs & -> & HS) & Hx).
  apply apply_unpackage_inv in Hx as (inputs' & image & bbs & Heq & Ha & ->).
  injection Heq as <-. apply apply_spec in Ha as (-> & _).
  eexists _, bbs. split; [reflexivity|]. exists (ex_image inputs).
  split; [exact HS | reflexivity].
Qed.

Lemma yields_batches (r : rng) (G : Z) (source : dataset) (S : RawImage -> Prop) :
  yields r source (fun v => exists inputs, v = VExample inputs /\ S (ex_image inputs)) ->
  yields r (batches_of G source) (fun v =>
    exists images bbs, v = VBatch images bbs /\
      List.length images = Z.to_nat G /\
      Forall (fun image => exists raw, S raw /\
                image = preprocess_input (cast_image raw)) images).
Proof.
  intros Hsrc. eapply yields_weaken; cycle 1.
  { apply yields_batch. apply yields_samples. exact Hsrc. }
  cbv beta. intros v (group & _ & Hlen & Hgroup & Hy).
  apply (ragged_batch_images _ _ _ Hgroup) in Hy as (images & bbs & -> & Hl & HR).
  exists images, bbs. split; [reflexivity|]. split; [congruence | exact HR].
Qed.

(** The stages after batching: the layer, the tuple, [pad_fn]. *)
Lemma yields_labeled (r : rng) (G : Z) (l : layer) (batches : dataset)
  (R : Image -> Prop) :
  yields r batches (fun v => exists images bbs, v = VBatch images bbs /\
                                                Forall R images) ->
  yields r (labeled_by G l batches) (fun v =>
    exists images boxes classes draw batch_in boxes_in boxes_out,
      v = VLabeled images boxes classes /\
      Forall R batch_in /\
      apply_layer l draw (batch_in, boxes_in) = Ok (images, boxes_out) /\
      pad_fn G images boxes_out = Ok (images, (boxes, classes))).
Proof.
  intros Hb. unfold labeled_by. eapply yields_weaken; cycle 1.
  { apply yields_map. apply yields_map. apply yields_map. exact Hb. }
  cbv beta.
  intros v (x3 & d3 & (x2 & d2 & (x1 & d1 & (images & bbs & -> & HR) & H1) & H2) & H3).
  apply apply_layer_inv in H1 as (bi & bxi & imgs & bxo & Heq & Hl & ->).
  injection Heq as <- <-.
  apply apply_tuple_inv in H2 as (imgs' & bxo' & Heq & ->).
  injection Heq as <- <-.
  apply apply_pad_fn_inv in H3 as (imgs' & bxo' & gb & gc & Heq & Hp & ->).
  injection Heq as <- <-.
  exists imgs, gb, gc, d1, images, bbs, bxo. repeat split; assumption.
Qed.

Lemma yields_train_source (r : rng) :
  yields r train_source (fun v =>
    exists inputs, v = VExample inputs /\
                   In (ex_image inputs) (source_images train_source)).
Proof.
  unfold train_source. eapply yields_weaken; cycle 1.
  { apply yields_concatenate; apply yields_tfds_load. }
  cbv beta. intros v [(t & Ht & ->)|(t & Ht & ->)];
    exists (example_of t); (split; [reflexivity|]); simpl;
    apply in_or_app; [left|right]; apply in_map; exact Ht.
Qed.

Lemma yields_eval_source (r : rng) :
  yields r eval_source (fun v =>
    exists inputs, v = VExample inputs /\
                   In (ex_image inputs) (source_images eval_source)).
Proof.
  unfold eval_source. eapply yields_weaken; cycle 1.
  { apply yields_tfds_load. }
  cbv beta. intros v (t & Ht & ->).
  exists (example_of t). split; [reflexivity|]. simpl. apply in_map. exact Ht.
Qed.

End StageFacts.

Section RunTheorems.
Context {tf : Framework}.

(** C3. In a run that reaches its end, the first stage of the train and of
    the eval pipeline maps [unpackage_inputs("xywh")] over the examples:
    every example is turned into one dictionary whose boxes are
    [convert_format] of the example's boxes from ["rel_yxyx"] to ["xywh"],
    each row followed by the class label cast to float32, which is the
    fifth coordinate next to four box coordinates; ["xywh"] is also the
    format the model, the augmentation and resizing layers and the
    evaluation callback are built with. *)
Theorem boxes_xywh_with_class (h : host) (args : argv) (o : oracle) (g : globals) :
  script h args o = Ok g ->
  (exists n,
     g_train_ds g
     = labeled_by (4 * n) (g_augmenter g)
         (prefetch
            (shuffle
               (dense_to_ragged_batch
                  (ds_map train_source (unpackage_inputs_apply "xywh") AUTOTUNE)
                  (4 * n) true)
               (8 * n)) AUTOTUNE) /\
     g_eval_ds g
     = labeled_by (4 * n) (g_eval_resizing g)
         (prefetch
            (dense_to_ragged_batch
               (ds_map eval_source (unpackage_inputs_apply "xywh") AUTOTUNE)
               (4 * n) true) AUTOTUNE)) /\
  (forall r source xs out,
     ds_run r source = Ok xs ->
     ds_run r (ds_map source (unpackage_inputs_apply "xywh") AUTOTUNE) = Ok out ->
     Forall2 (fun x y => exists inputs image bounding_boxes,
                x = VExample inputs /\ y = VSample image bounding_boxes /\
                apply "xywh" inputs = Ok (image, bounding_boxes)) xs out) /\
  (forall inputs image bounding_boxes,
     apply "xywh" inputs = Ok (image, bounding_boxes) ->
     List.length bounding_boxes = List.length (ex_objects_label inputs) /\
     forall i row,
       nth_error bounding_boxes i = Some row ->
       exists box label,
         nth_error (convert_format (ex_objects_bbox inputs) image "rel_yxyx" "xywh") i
           = Some box /\
         nth_error (ex_objects_label inputs) i = Some label /\
         row = box ++ [cast_int64 label] /\
         (List.length box = 4 ->
          List.length row = 5 /\ firstn 4 row = box /\
          nth_error row 4 = Some (cast_int64 label))) /\
  (forall inputs,
     let image := preprocess_input (cast_image (ex_image inputs)) in
     List.length (convert_format (ex_objects_bbox inputs) image "rel_yxyx" "xywh")
       = List.length (ex_objects_label inputs) ->
     exists bounding_boxes, apply "xywh" inputs = Ok (image, bounding_boxes)) /\
  rn_bounding_box_format (g_model g) = "xywh" /\
  Forall (eq "xywh") (layer_formats (g_augmenter g)) /\
  layer_formats (g_eval_resizing g) = ["xywh"] /\
  In (PyCOCOCallback (g_eval_ds g) "xywh") (g_callbacks g).
Proof.
  intros H. apply script_ok in H as [_ Hg].
  split; [|split; [|split; [|split; [|split; [|split; [|split]]]]]].
  - exists (num_replicas_in_sync h (g_strategy g)). rewrite Hg. split; reflexivity.
  - intros r source xs out Hxs Hout. simpl in Hout. rewrite Hxs in Hout.
    simpl in Hout. apply mapM_from_ok_Forall2 in Hout.
    apply (Forall2_impl (R1 := fun x y => exists j,
             apply_map_fn (unpackage_inputs_apply "xywh")
               (draw_at r (unpackage_inputs_apply "xywh") j) x = Ok y));
      [|exact Hout].
    intros x y (j & Hj).
    apply apply_unpackage_inv in Hj as (inputs & image & bbs & -> & Ha & ->).
    exists inputs, image, bbs. repeat split. exact Ha.
  - intros inputs image bbs Ha. apply apply_spec in Ha as (_ & Hlen & Hrows).
    split; [exact Hlen|]. intros i row Hrow.
    destruct (Hrows i row Hrow) as (box & label & Hbox & Hlabel & ->).
    exists box, label. repeat split; try assumption.
    + rewrite length_app. simpl. lia.
    + rewrite firstn_app, <- H, firstn_all, Nat.sub_diag. simpl.
      apply app_nil_r.
    + rewrite nth_error_app2 by lia. rewrite H. reflexivity.
  - intros inputs image Hlen. unfold apply, concat_last, expand_dims_1.
    fold image. rewrite !length_map, Hlen, Nat.eqb_refl. simpl.
    eexists. reflexivity.
  - rewrite Hg. reflexivity.
  - rewrite Hg. simpl. repeat constructor.
  - rewrite Hg. reflexivity.
  - rewrite Hg. simpl. tauto.
Qed.

(** C4. In a run that reaches its end, every batch of images either
    pipeline delivers comes from a layer called on images that are each
    [preprocess_input] of the cast of a raw image of the pipeline's source
    (the preprocessing of lines 81-82), and each output of the backbone is
    computed by ResNet50 layers that receive [preprocess_input] of the
    batch the model is fed (line 176): the backbone sees images that went
    through the preprocessing twice. *)
Theorem images_preprocessed_twice (h : host) (args : argv) (o : oracle) (g : globals) :
  script h args o = Ok g ->
  (forall r,
     yields r (g_train_ds g)
       (preprocessed_then (g_augmenter g) (source_images (g_train_ds g)))) /\
  (forall r,
     yields r (g_eval_ds g)
       (preprocessed_then (g_eval_resizing g) (source_images (g_eval_ds g)))) /\
  (forall output images,
     In output (km_outputs (rn_backbone (g_model g))) ->
     resnet_receives output images = Some (map preprocess_input images)) /\
  km_inputs (rn_backbone (g_model g)) = KInput [640; 640; 3]%Z /\
  List.length (km_outputs (rn_backbone (g_model g))) = 3 /\
  fit_model (g_history g) = g_model g /\
  fit_x (g_history g) = g_train_ds g /\
  fit_validation_data (g_history g) = g_eval_ds g.
Proof.
  intros H. apply script_ok in H as [_ Hg].
  assert (forall r l batches G,
            yields r batches (fun v => exists images bbs, v = VBatch images bbs /\
              Forall (fun image => exists raw, In raw (source_images batches) /\
                        image = preprocess_input (cast_image raw)) images) ->
            yields r (labeled_by G l batches)
                   (preprocessed_then l (source_images (labeled_by G l batches))))
    as Hlabeled.
  { intros r l batches G Hb. eapply yields_weaken; cycle 1.
    { apply yields_labeled. exact Hb. }
    cbv beta.
    intros v (images & boxes & classes & draw & bi & bxi & bxo & -> & HR & Hl & _).
    exists images, boxes, classes, draw, bi, bxi, bxo.
    split; [reflexivity|]. split; [exact HR | exact Hl]. }
  split; [|split; [|split]].
  - intros r. rewrite Hg. apply Hlabeled.
    apply yields_prefetch, yields_shuffle.
    eapply yields_weaken; cycle 1.
    { apply (yields_batches r _ train_source
               (fun raw => In raw (source_images train_source))).
      apply yields_train_source. }
    cbv beta. intros v (images & bbs & -> & _ & HR). exists images, bbs.
    split; [reflexivity | exact HR].
  - intros r. rewrite Hg. apply Hlabeled.
    apply yields_prefetch.
    eapply yields_weaken; cycle 1.
    { apply (yields_batches r _ eval_source
               (fun raw => In raw (source_images eval_source))).
      apply yields_eval_source. }
    cbv beta. intros v (images & bbs & -> & _ & HR). exists images, bbs.
    split; [reflexivity | exact HR].
  - intros output images. rewrite Hg. simpl.
    intros [<-|[<-|[<-|[]]]]; reflexivity.
  - rewrite Hg. repeat split.
Qed.

(** C5. A run that reaches its end has built two pipelines, the ones
    [model.fit] and the evaluation callback consume.  The only layer
    mapped onto the training pipeline is the augmenter of [RandomFlip],
    [JitteredResize] and [MixUp] under [MaybeApply] with rate 0.5 and
    [batchwise=True]; the only layer mapped onto the evaluation pipeline is
    [Resizing] to 640 by 640 with [pad_to_aspect_ratio=True]; the training
    pipeline has one shuffle and the evaluation pipeline none, so that
    what the evaluation pipeline yields does not depend on the order a
    shuffle would choose. *)
Theorem augmentation_only_on_train (h : host) (args : argv) (o : oracle)
  (g : globals) :
  script h args o = Ok g ->
  datasets_used (g_history g) = [g_train_ds g; g_eval_ds g; g_eval_ds g] /\
  mapped_layers (g_train_ds g)
  = [Augmenter [RandomFlip "horizontal" "xywh";
                JitteredResize (640, 640)%Z (8 # 10, 125 # 100)%Q "xywh";
                MaybeApply MixUp (5 # 10)%Q true]] /\
  mapped_layers (g_eval_ds g) = [Resizing 640 640 "xywh" true] /\
  shuffle_buffers (g_train_ds g)
  = [(8 * num_replicas_in_sync h (g_strategy g))%Z] /\
  shuffle_buffers (g_eval_ds g) = [] /\
  (forall order order' draws,
     ds_run (Build_rng order draws) (g_eval_ds g)
     = ds_run (Build_rng order' draws) (g_eval_ds g)).
Proof.
  intros H. apply script_ok in H as [_ Hg]. rewrite Hg.
  repeat split.
Qed.

(** C6. In a run that reaches its end, the training pipeline reads the
    concatenation of the ["train+validation"] split of voc/2007 and the
    ["train+validation"] split of voc/2012, in this order, and the
    evaluation pipeline reads the ["test"] split of voc/2007 alone. *)
Theorem train_and_eval_sources (h : host) (args : argv) (o : oracle) (g : globals) :
  script h args o = Ok g ->
  source_of (g_train_ds g)
  = concatenate (tfds_load "voc/2007" "train+validation" false true)
                (tfds_load "voc/2012" "train+validation" false true) /\
  source_of (g_eval_ds g) = tfds_load "voc/2007" "test" false false /\
  (forall r,
     ds_run r (source_of (g_train_ds g))
     = Ok (map (fun t => VExample (example_of t))
             (tfds_data "voc/2007" "train+validation" true
              ++ tfds_data "voc/2012" "train+validation" true))) /\
  (forall r,
     ds_run r (source_of (g_eval_ds g))
     = Ok (map (fun t => VExample (example_of t))
             (tfds_data "voc/2007" "test" false))).
Proof.
  intros H. apply script_ok in H as [_ Hg]. rewrite Hg.
  split; [reflexivity|]. split; [reflexivity|]. split; intros r; simpl.
  - rewrite map_app. reflexivity.
  - reflexivity.
Qed.

(** C8. In a run that reaches its end, [model.fit] is called on the
    training pipeline with the evaluation pipeline as [validation_data]
    and with the five callbacks [TensorBoard], [ReduceLROnPlateau] with
    patience 5, [EarlyStopping] with patience 10, [ModelCheckpoint] writing
    weights only to ["checkpoint/"], and [PyCOCOCallback] over the
    evaluation pipeline in ["xywh"] format. *)
Theorem fit_callbacks_and_validation (h : host) (args : argv) (o : oracle)
  (g : globals) :
  script h args o = Ok g ->
  fit_callbacks (g_history g)
  = [TensorBoard "logs"; ReduceLROnPlateau 5; EarlyStopping 10;
     ModelCheckpoint "checkpoint/" true; PyCOCOCallback (g_eval_ds g) "xywh"] /\
  fit_callbacks (g_history g) = g_callbacks g /\
  fit_x (g_history g) = g_train_ds g /\
  fit_validation_data (g_history g) = g_eval_ds g /\
  fit_model (g_history g) = g_model g /\
  g_CHECKPOINT_PATH g = "checkpoint/" /\
  source_of (g_eval_ds g) = tfds_load "voc/2007" "test" false false.
Proof.
  intros H. apply script_ok in H as [_ Hg]. rewrite Hg.
  repeat split.
Qed.

End RunTheorems.

(** Two runs under the same oracle end alike: with the same exception, or
    in end states built from the same strategy. *)
Lemma script_body_agree (E1 E2 : Z) (h : host) (args1 args2 : argv) (o : oracle) :
  match script_body E1 h args1 o, script_body E2 h args2 o with
  | Ok g1, Ok g2 =>
      exists s, g1 = final_globals E1 h args1 s /\ g2 = final_globals E2 h args2 s
  | Raise e1, Raise e2 => e1 = e2
  | _, _ => False
  end.
Proof.
  rewrite !script_run. unfold script_outcome.
  destruct (first_raise o sites_before_try); [reflexivity|].
  destruct (build_strategy o) as [s|e]; [|reflexivity].
  destruct (first_raise o sites_after_try); [reflexivity|].
  exists s. split; reflexivity.
Qed.

(** C9. The values given to the flags [weights_name] and
    [tensorboard_path] change nothing but the parsed [FLAGS] themselves:
    two runs that differ in the command line only end with the same
    exception, or in end states that are equal up to [FLAGS]; the
    checkpoints go to the literal ["checkpoint/"] and the TensorBoard logs
    to the literal ["logs"] whatever the flags say. *)
Theorem flag_values_unused (h : host) (args1 args2 : argv) (o : oracle) :
  match script h args1 o, script h args2 o with
  | Ok g1, Ok g2 =>
      g2 = with_FLAGS g1 (g_FLAGS g2) /\
      g_FLAGS g1
      = [("weights_name",
          flag_value args1
            (DEFINE_string "weights_name" "weights_{epoch:02d}.h5"
               "Directory which will be used to store weight checkpoints."));
         ("tensorboard_path",
          flag_value args1
            (DEFINE_string "tensorboard_path" "logs"
               "Directory which will be used to store tensorboard logs."))] /\
      In (ModelCheckpoint "checkpoint/" true) (g_callbacks g1) /\
      In (TensorBoard "logs") (g_callbacks g1) /\
      g_callbacks g2 = g_callbacks g1 /\
      g_history g2 = g_history g1
  | Raise e1, Raise e2 => e1 = e2
  | _, _ => False
  end.
Proof.
  pose proof (script_body_agree 100 100 h args1 args2 o) as H.
  unfold script.
  destruct (script_body 100 h args1 o) as [g1|e1],
           (script_body 100 h args2 o) as [g2|e2]; try exact H.
  destruct H as (s & -> & ->). repeat split; simpl; tauto.
Qed.

(** C10. A run that reaches its end has called [model.fit] with
    [epochs=35], not with the constant [EPOCHS], which is 100; and the
    value bound to [EPOCHS] changes nothing but that global: with any
    other value the run ends with the same exception, or in an end state
    equal up to [EPOCHS]. *)
Theorem fit_epochs_literal_35 (h : host) (args : argv) (o : oracle) :
  (forall g, script h args o = Ok g ->
     fit_epochs (g_history g) = 35%Z /\ g_EPOCHS g = 100%Z /\
     fit_epochs (g_history g) <> g_EPOCHS g) /\
  (forall E,
     match script_body E h args o, script h args o with
     | Ok g', Ok g => g' = with_EPOCHS g E
     | Raise e', Raise e => e' = e
     | _, _ => False
     end).
Proof.
  split.
  - intros g H. pose proof (script_body_agree 100 100 h args args o) as Ha.
    unfold script in H. rewrite H in Ha. destruct Ha as (s & -> & _).
    repeat split. discriminate.
  - intros E. pose proof (script_body_agree E 100 h args args o) as H.
    unfold script.
    destruct (script_body E h args o) as [g1|e1],
             (script_body 100 h args o) as [g2|e2]; try exact H.
    destruct H as (s & -> & ->). reflexivity.
Qed.

(** ** The frozen backbone *)

Section Frozen.
Context {tf : Framework}.
Variable W : Type.
Variable pretrained : string -> W.
Variable gradient_update : retina_net -> W * W -> value -> W * W.

Lemma fit_loop_frozen (c : fit_call) (w : net_weights W) (batches : list value) :
  km_trainable (rn_backbone (fit_model c)) = false ->
  w_backbone W (fit_loop W gradient_update c w batches) = w_backbone W w.
Proof.
  intros Hf. unfold fit_loop. revert w.
  induction batches as [|batch batches IH]; intros w; simpl; [reflexivity|].
  rewrite IH. unfold train_step. simpl. rewrite Hf. reflexivity.
Qed.

(** C7. In a run that reaches its end, the model given to [fit] wraps a
    backbone whose outputs are ResNet50 layers loaded from the ["imagenet"]
    weights; the backbone was set non-trainable on the model before
    [compile] was called on it; and over any number of steps of the fit
    loop the backbone weights stay what they were, the pretrained values
    they started from, while the step's update goes to the head. *)
Theorem backbone_frozen_during_fit (h : host) (args : argv) (o : oracle)
  (g : globals) :
  script h args o = Ok g ->
  let m := fit_model (g_history g) in
  Forall (fun t => output_weights t = Some "imagenet")
         (km_outputs (rn_backbone m)) /\
  List.length (km_outputs (rn_backbone m)) = 3 /\
  (exists backbone compile_args,
     m = compile (set_backbone_trainable (RetinaNet 20 "xywh" backbone) false)
                 compile_args /\
     km_trainable backbone = true) /\
  km_trainable (rn_backbone m) = false /\
  (forall (w : net_weights W) (batches : list value),
     w_backbone W (fit_loop W gradient_update (g_history g) w batches)
     = w_backbone W w) /\
  (forall (w : net_weights W) (batches : list value),
     w_backbone W w = pretrained "imagenet" ->
     w_backbone W (fit_loop W gradient_update (g_history g) w batches)
     = pretrained "imagenet") /\
  (forall (w : net_weights W) (batch : value),
     train_step W gradient_update m w batch
     = Build_net_weights W (w_backbone W w)
         (snd (gradient_update m (w_backbone W w, w_head W w) batch))).
Proof.
  intros H m. apply script_ok in H as [_ Hg].
  assert (km_trainable (rn_backbone (fit_model (g_history g))) = false) as Hfrozen
    by (rewrite Hg; reflexivity).
  split; [|split; [|split; [|split; [|split; [|split]]]]].
  - subst m. rewrite Hg. simpl. repeat constructor.
  - subst m. rewrite Hg. reflexivity.
  - subst m. rewrite Hg. eexists _, _. split; reflexivity.
  - exact Hfrozen.
  - intros w batches. apply fit_loop_frozen. exact Hfrozen.
  - intros w batches Hw. rewrite fit_loop_frozen by exact Hfrozen. exact Hw.
  - intros w batch. unfold train_step. subst m. rewrite Hfrozen. reflexivity.
Qed.

End Frozen.

(** ** The theorems at work on the small framework *)

Lemma strategy_fallback_only_handler_witness :
  build_strategy (raise_only (At 55 "TPUClusterResolver.connect") UnicodeError)
    = Ok MirroredStrategy /\
  build_strategy quiet = Ok (TPUStrategy TPUClusterResolver_connect) /\
  build_strategy (raise_only (At 56 "TPUStrategy") RuntimeError) = Raise RuntimeError /\
  script toy_host [] (raise_only (At 34 "resource.setrlimit") ValueError)
    = Raise ValueError /\
  script toy_host [] (raise_only (At 218 "model.fit") ValueError) = Raise ValueError /\
  script toy_host [] (raise_only (At 55 "TPUClusterResolver.connect") RuntimeError)
    = Raise RuntimeError.
Proof.
  split; [|split; [|split; [|split; [|split]]]].
  - destruct (strategy_fallback_only_handler toy_host []
                (raise_only (At 55 "TPUClusterResolver.connect") UnicodeError))
      as (H & _).
    rewrite (H UnicodeError eq_refl eq_refl). reflexivity.
  - destruct (strategy_fallback_only_handler toy_host [] quiet)
      as (_ & _ & H & _).
    exact (H eq_refl eq_refl).
  - destruct (strategy_fallback_only_handler toy_host []
                (raise_only (At 56 "TPUStrategy") RuntimeError))
      as (_ & _ & _ & H & _).
    exact (H RuntimeError eq_refl eq_refl).
  - destruct (strategy_fallback_only_handler toy_host []
                (raise_only (At 34 "resource.setrlimit") ValueError))
      as (_ & _ & _ & _ & _ & H & _).
    exact (H ValueError eq_refl).
  - destruct (strategy_fallback_only_handler toy_host []
                (raise_only (At 218 "model.fit") ValueError))
      as (_ & _ & _ & _ & _ & _ & H & _).
    exact (H (TPUStrategy TPUClusterResolver_connect) ValueError
             eq_refl eq_refl eq_refl).
  - destruct (strategy_fallback_only_handler toy_host [] quiet)
      as (_ & _ & _ & _ & _ & _ & _ & H & _).
    apply (H (At 55 "TPUClusterResolver.connect") RuntimeError).
    + simpl. tauto.
    + reflexivity.
Defined.

Lemma pad_fn_fixed_shape_witness :
  exists g out,
    script toy_host [] quiet = Ok g /\
    ds_run (tf := toy) toy_rng (g_train_ds g) = Ok out /\
    List.length out = 1 /\
    Forall (fun v =>
      exists image boxes gt_boxes gt_classes,
        v = VLabeled (tf := toy) image gt_boxes gt_classes /\
        pad_fn (tf := toy) (g_GLOBAL_BATCH_SIZE g) image boxes
        = Ok (image, (gt_boxes, gt_classes))) out /\
    (exists gt_boxes gt_classes,
       pad_fn (tf := toy) (g_GLOBAL_BATCH_SIZE g) [7%Z] [[[1; 2; 3; 4; 5]%Q]]
       = Ok ([7%Z], (gt_boxes, gt_classes)) /\
       has_shape3 4 32 4 gt_boxes /\ has_shape2 4 32 gt_classes /\
       nth 3 (nth 0 (nth 0 gt_boxes []) []) (-1)%Q = 4%Q /\
       nth 0 (nth 0 gt_classes []) (-1)%Q = 5%Q /\
       nth 0 (nth 1 (nth 0 gt_boxes []) []) (-1)%Q = (-1)%Q).
Proof.
  assert (ds_run (tf := toy) toy_rng (g_train_ds toy_end) = Ok toy_train_batches)
    as Hrun by (vm_compute; reflexivity).
  exists toy_end, toy_train_batches.
  split; [reflexivity|]. split; [exact Hrun|]. split; [reflexivity|].
  pose proof (pad_fn_fixed_shape (tf := toy) toy_host [] quiet _ eq_refl) as H.
  cbv zeta in H. destruct H as (H1 & H2 & _ & _). split.
  - exact (H1 toy_rng _ (or_introl eq_refl) toy_train_batches Hrun).
  - destruct (H2 [7%Z] [[[1; 2; 3; 4; 5]%Q]])
      as (gb & gc & Hp & _ & Hd & Hsb & Hsc & Hb & Hc).
    exists gb, gc. split; [exact Hp|]. split; [exact Hsb|]. split; [exact Hsc|].
    split; [|split].
    + etransitivity; [exact (Hb 0 0 3 ltac:(lia))|].
      etransitivity; [apply (Hd 0 0 3); simpl; lia | reflexivity].
    + etransitivity; [exact (Hc 0 0)|].
      etransitivity; [apply (Hd 0 0 4); simpl; lia | reflexivity].
    + etransitivity; [exact (Hb 0 1 0 ltac:(lia))|].
      etransitivity; [apply (Hd 0 1 0); simpl; lia | reflexivity].
Defined.

Lemma boxes_xywh_with_class_witness :
  exists g out,
    script toy_host [] quiet = Ok g /\
    ds_run (tf := toy) toy_rng
      (ds_map eval_source (unpackage_inputs_apply "xywh") AUTOTUNE) = Ok out /\
    Forall2 (fun x y => exists inputs image bounding_boxes,
               x = VExample (tf := toy) inputs /\
               y = VSample image bounding_boxes /\
               apply (tf := toy) "xywh" inputs = Ok (image, bounding_boxes))
            (map (fun t => VExample (example_of t)) (tfds_data "voc/2007" "test" false))
            out /\
    (exists bounding_boxes,
       apply (tf := toy) "xywh" (example_of (tf := toy) (toy_example 7))
       = Ok (6%Z, bounding_boxes) /\
       nth_error bounding_boxes 1 = Some [0; 0; 1; 1; inject_Z 8]%Q) /\
    rn_bounding_box_format (g_model g) = "xywh".
Proof.
  assert (ds_run (tf := toy) toy_rng
            (ds_map eval_source (unpackage_inputs_apply "xywh") AUTOTUNE)
          = Ok toy_eval_samples) as Hrun by (vm_compute; reflexivity).
  exists toy_end, toy_eval_samples.
  split; [reflexivity|]. split; [exact Hrun|].
  pose proof (boxes_xywh_with_class (tf := toy) toy_host [] quiet _ eq_refl)
    as (_ & H2 & H3 & H4 & H5 & _).
  split; [apply (H2 toy_rng eval_source); [reflexivity | exact Hrun]|].
  split; [|exact H5].
  destruct (H4 (example_of (tf := toy) (toy_example 7)) eq_refl) as (bbs & Hb).
  exists bbs. split; [exact Hb|].
  destruct (H3 _ _ _ Hb) as (_ & Hrows).
  destruct (nth_error bbs 1) as [row|] eqn:Hrow.
  - destruct (Hrows 1 row Hrow) as (box & label & Hbox & Hlabel & -> & _).
    injection Hbox as <-. injection Hlabel as <-. reflexivity.
  - vm_compute in Hb. injection Hb as <-. discriminate Hrow.
Defined.

Lemma images_preprocessed_twice_witness :
  exists g out,
    script toy_host [] quiet = Ok g /\
    ds_run (tf := toy) toy_rng (g_eval_ds g) = Ok out /\
    List.length out = 1 /\
    Forall (preprocessed_then (tf := toy) (g_eval_resizing g)
              (source_images (tf := toy) (g_eval_ds g))) out /\
    Forall (fun output =>
              resnet_receives (tf := toy) output [99; 100; 101; 102]%Z
              = Some [98; 99; 100; 101]%Z)
           (km_outputs (rn_backbone (g_model g))).
Proof.
  assert (ds_run (tf := toy) toy_rng (g_eval_ds toy_end) = Ok toy_eval_batches)
    as Hrun by (vm_compute; reflexivity).
  exists toy_end, toy_eval_batches.
  split; [reflexivity|]. split; [exact Hrun|]. split; [reflexivity|].
  pose proof (images_preprocessed_twice (tf := toy) toy_host [] quiet _ eq_refl)
    as (_ & H2 & H3 & _).
  split; [exact (H2 toy_rng toy_eval_batches Hrun)|].
  apply Forall_forall. intros output Hin.
  exact (H3 output [99; 100; 101; 102]%Z Hin).
Defined.

Lemma augmentation_only_on_train_witness :
  exists g,
    script toy_host [] quiet = Ok g /\
    mapped_layers (g_eval_ds g) = [Resizing 640 640 "xywh" true] /\
    shuffle_buffers (g_train_ds g) = [8%Z] /\
    shuffle_buffers (g_eval_ds g) = [].
Proof.
  exists toy_end. split; [reflexivity|].
  pose proof (augmentation_only_on_train (tf := toy) toy_host [] quiet _ eq_refl)
    as (_ & _ & H3 & H4 & H5 & _).
  split; [exact H3|]. split; [exact H4 | exact H5].
Defined.

Lemma train_and_eval_sources_witness :
  exists g,
    script toy_host [] quiet = Ok g /\
    source_of (g_eval_ds g) = tfds_load "voc/2007" "test" false false /\
    ds_run (tf := toy) toy_rng (source_of (g_train_ds g))
    = Ok (map (fun t => VExample (tf := toy) (example_of (tf := toy) t))
            (map toy_example [1; 2; 3; 11; 12; 13]%Z)).
Proof.
  exists toy_end. split; [reflexivity|].
  pose proof (train_and_eval_sources (tf := toy) toy_host [] quiet _ eq_refl)
    as (_ & H2 & H3 & _).
  split; [exact H2 | exact (H3 toy_rng)].
Defined.

Lemma fit_callbacks_and_validation_witness :
  exists g,
    script toy_host [] quiet = Ok g /\
    fit_callbacks (g_history g)
    = [TensorBoard "logs"; ReduceLROnPlateau 5; EarlyStopping 10;
       ModelCheckpoint "checkpoint/" true; PyCOCOCallback (g_eval_ds g) "xywh"] /\
    fit_validation_data (g_history g) = g_eval_ds g.
Proof.
  exists toy_end. split; [reflexivity|].
  pose proof (fit_callbacks_and_validation toy_host [] quiet _ eq_refl)
    as (H1 & _ & _ & H4 & _).
  split; [exact H1 | exact H4].
Defined.

Lemma fit_epochs_literal_35_witness :
  exists g,
    script toy_host [("weights_name", "w.h5")] quiet = Ok g /\
    fit_epochs (g_history g) = 35%Z /\ g_EPOCHS g = 100%Z.
Proof.
  exists (final_globals 100 toy_host [("weights_name", "w.h5")]
            (TPUStrategy TPUClusterResolver_connect)).
  split; [reflexivity|].
  destruct (fit_epochs_literal_35 toy_host [("weights_name", "w.h5")] quiet)
    as (H & _).
  destruct (H _ eq_refl) as (H1 & H2 & _).
  split; [exact H1 | exact H2].
Defined.

Lemma backbone_frozen_during_fit_witness :
  exists g,
    script toy_host [] quiet = Ok g /\
    km_trainable (rn_backbone (fit_model (g_history g))) = false /\
    fit_loop (tf := toy) Z toy_update (g_history g)
      (Build_net_weights Z 50%Z 0%Z)
      [VTuple [] []; VTuple [] []; VTuple [] []]
    = Build_net_weights Z 50%Z 3%Z.
Proof.
  exists toy_end. split; [reflexivity|].
  pose proof (backbone_frozen_during_fit (tf := toy) Z (fun _ => 50%Z) toy_update
                toy_host [] quiet _ eq_refl) as H.
  cbv zeta in H. destruct H as (_ & _ & _ & H4 & H5 & _).
  split; [exact H4|].
  pose proof (H5 (Build_net_weights Z 50%Z 0%Z)
                [VTuple [] []; VTuple [] []; VTuple [] []]) as Hb.
  destruct (fit_loop (tf := toy) Z toy_update _ _ _) as [wb wh] eqn:Hfit.
  simpl in Hb. subst wb. vm_compute in Hfit. injection Hfit as <-. reflexivity.
Defined.

(** * More of the script *)

(** ** Padding in closed form *)

Lemma resize_exact {A : Type} (n : nat) (d : A) (l : list A) :
  List.length l = n -> resize n d l = l.
Proof.
  intros <-. unfold resize. rewrite firstn_app, firstn_all, Nat.sub_diag.
  simpl. apply app_nil_r.
Qed.

Lemma map_resize {A B : Type} (f : A -> B) (n : nat) (d : A) (l : list A) :
  map f (resize n d l) = resize n (f d) (map f l).
Proof.
  unfold resize. rewrite <- firstn_map, map_app, map_repeat. reflexivity.
Qed.


Lemma map_ext_Forall {A B : Type} (f g : A -> B) (l : list A) :
  Forall (fun x => f x = g x) l -> map f l = map g l.
Proof.
  induction 1 as [|x l Hx _ IH]; simpl; [reflexivity|]. rewrite Hx, IH. reflexivity.
Qed.

(** On a ragged tensor that has one entry per image of the batch and only
    rows of [c] values, [to_tensor] pads or truncates the rows of each
    image and nothing else. *)
Lemma to_tensor_rows {A : Type} (d : A) (b r c : nat) (rt : list (list (list A))) :
  List.length rt = b ->
  Forall (Forall (fun row => List.length row = c)) rt ->
  to_tensor d b r c rt = map (resize r (repeat d c)) rt.
Proof.
  intros Hb Hrows. unfold to_tensor.
  rewrite resize_exact by (rewrite length_map; exact Hb).
  apply map_ext_Forall.
  apply (Forall_impl _ (P := Forall (fun row => List.length row = c))); [|exact Hrows].
  intros rows Hr. f_equal.
  rewrite <- (map_id rows) at 2. apply map_ext_Forall.
  apply (Forall_impl _ (P := fun row => List.length row = c)); [|exact Hr].
  intros row Hrow. apply resize_exact. exact Hrow.
Qed.



Section PadFacts.
Context {tf : Framework}.

(** [pad_fn] on a batch that has one ragged entry per image, each row of
    five values. *)
Lemma pad_fn_rows (G : Z) (image : list Image) (boxes : list (list (list f32))) :
  List.length boxes = Z.to_nat G ->
  Forall (Forall (fun row => List.length row = 5)) boxes ->
  pad_fn G image boxes
  = Ok (image,
        (map (fun rows => resize 32 (repeat (f32_lit (-1)) 4) (map (firstn 4) rows))
             boxes,
         map (fun rows => resize 32 (f32_lit (-1))
                            (map (fun row => nth 4 row (f32_lit (-1))) rows))
             boxes)).
Proof.
  intros Hb Hrows. rewrite pad_fn_returns.
  rewrite (to_tensor_rows _ _ _ _ _ Hb Hrows).
  unfold slice_to_4. rewrite !map_map. do 3 f_equal.
  - apply map_ext. intros rows. rewrite (map_resize (firstn 4)). reflexivity.
  - apply map_ext. intros rows.
    rewrite (map_resize (fun row => nth 4 row (f32_lit (-1)))). reflexivity.
Qed.

(** X5. On a batch that has one ragged entry per image, each row of five
    values, [pad_fn] returns for every image its box coordinates, padded
    with rows of [-1.0] or cut to 32 rows, and its classes, padded with
    [-1.0] or cut to 32: the real boxes come first, in their order, at
    most 32 of them are kept, and an image without boxes gets 32 rows of
    [-1.0]. *)
Theorem pad_fn_well_formed (G : Z) (image : list Image)
  (boxes : list (list (list f32))) :
  List.length boxes = Z.to_nat G ->
  Forall (Forall (fun row => List.length row = 5)) boxes ->
  pad_fn G image boxes
  = Ok (image,
        (map (fun rows => resize 32 (repeat (f32_lit (-1)) 4) (map (firstn 4) rows))
             boxes,
         map (fun rows => resize 32 (f32_lit (-1))
                            (map (fun row => nth 4 row (f32_lit (-1))) rows))
             boxes)) /\
  (forall i, nth_error boxes i = Some [] ->
     nth_error (map (fun rows => resize 32 (repeat (f32_lit (-1)) 4)
                                   (map (firstn 4) rows)) boxes) i
     = Some (repeat (repeat (f32_lit (-1)) 4) 32) /\
     nth_error (map (fun rows => resize 32 (f32_lit (-1))
                                   (map (fun row => nth 4 row (f32_lit (-1))) rows))
                    boxes) i
     = Some (repeat (f32_lit (-1)) 32)).
Proof.
  intros Hb Hrows. split; [apply pad_fn_rows; assumption|].
  intros i Hi. rewrite !nth_error_map, Hi. split; reflexivity.
Qed.



End PadFacts.

(** ** From [apply] to [pad_fn] *)

Lemma zip_rows_expand {A : Type} (d : A) (a : list (list A)) (l : list A) :
  List.length a = List.length l ->
  Forall (fun box => List.length box = 4) a ->
  Forall (fun row => List.length row = 5) (zip_rows a (expand_dims_1 l)) /\
  map (firstn 4) (zip_rows a (expand_dims_1 l)) = a /\
  map (fun row => nth 4 row d) (zip_rows a (expand_dims_1 l)) = l.
Proof.
  revert l. induction a as [|box a IH]; intros [|c l] Hlen Hbox;
    cbn [List.length] in Hlen; try discriminate Hlen.
  - split; [constructor | split; reflexivity].
  - inversion Hbox as [|? ? Hb Ha]; subst.
    destruct (IH l) as (H5 & H4 & Hc); [lia | exact Ha |].
    unfold expand_dims_1 in *. cbn [map zip_rows]. split; [|split].
    + constructor; [rewrite length_app; simpl; lia | exact H5].
    + rewrite H4. f_equal.
      rewrite firstn_app, <- Hb, firstn_all, Nat.sub_diag. simpl. apply app_nil_r.
    + rewrite Hc. f_equal. rewrite app_nth2 by lia. rewrite Hb. reflexivity.
Qed.

Section ApplyPad.
Context {tf : Framework}.

Lemma apply_well_formed (fmt : string) (inputs : Example) :
  boxes_well_formed fmt inputs ->
  apply fmt inputs
  = Ok (preprocess_input (cast_image (ex_image inputs)),
        zip_rows
          (convert_format (ex_objects_bbox inputs)
             (preprocess_input (cast_image (ex_image inputs))) "rel_yxyx" fmt)
          (expand_dims_1 (map cast_int64 (ex_objects_label inputs)))).
Proof.
  intros [Hlen _]. unfold apply, concat_last, expand_dims_1.
  rewrite !length_map, Hlen, Nat.eqb_refl. reflexivity.
Qed.

(** X8. What [apply] joins, [pad_fn] takes apart again.  For a batch of
    [GLOBAL_BATCH_SIZE] examples whose converted boxes have four
    coordinates and are as many as the labels, [apply] succeeds on each,
    and [pad_fn] on their images and box rows returns, for each example,
    exactly its converted boxes and its labels cast to float32, padded
    with [-1.0] or cut to 32. *)
Theorem apply_then_pad_fn (fmt : string) (G : Z) (examples : list Example) :
  List.length examples = Z.to_nat G ->
  Forall (boxes_well_formed fmt) examples ->
  exists samples,
    mapM (apply fmt) examples = Ok samples /\
    map fst samples
    = map (fun inputs => preprocess_input (cast_image (ex_image inputs))) examples /\
    pad_fn G (map fst samples) (map snd samples)
    = Ok (map fst samples,
          (map (fun inputs =>
                  resize 32 (repeat (f32_lit (-1)) 4)
                    (convert_format (ex_objects_bbox inputs)
                       (preprocess_input (cast_image (ex_image inputs)))
                       "rel_yxyx" fmt)) examples,
           map (fun inputs =>
                  resize 32 (f32_lit (-1))
                    (map cast_int64 (ex_objects_label inputs))) examples)).
Proof.
  intros HG Hwf.
  set (sample := fun inputs : Example =>
         (preprocess_input (cast_image (ex_image inputs)),
          zip_rows
            (convert_format (ex_objects_bbox inputs)
               (preprocess_input (cast_image (ex_image inputs))) "rel_yxyx" fmt)
            (expand_dims_1 (map cast_int64 (ex_objects_label inputs))))).
  exists (map sample examples). split; [|split].
  - apply mapM_ok_map.
    apply (Forall_impl _ (P := boxes_well_formed fmt)); [|exact Hwf].
    intros inputs Hi. apply apply_well_formed. exact Hi.
  - rewrite map_map. reflexivity.
  - assert (forall inputs, boxes_well_formed fmt inputs ->
              Forall (fun row => List.length row = 5) (snd (sample inputs)) /\
              map (firstn 4) (snd (sample inputs))
              = convert_format (ex_objects_bbox inputs)
                  (preprocess_input (cast_image (ex_image inputs))) "rel_yxyx" fmt /\
              map (fun row => nth 4 row (f32_lit (-1))) (snd (sample inputs))
              = map cast_int64 (ex_objects_label inputs)) as Hrows.
    { intros inputs [Hlen Hbox]. simpl. apply zip_rows_expand.
      - rewrite length_map. exact Hlen.
      - exact Hbox. }
    rewrite pad_fn_rows.
    + rewrite !map_map. do 3 f_equal.
      * apply map_ext_Forall.
        apply (Forall_impl _ (P := boxes_well_formed fmt)); [|exact Hwf].
        intros inputs Hi. destruct (Hrows inputs Hi) as (_ & -> & _). reflexivity.
      * apply map_ext_Forall.
        apply (Forall_impl _ (P := boxes_well_formed fmt)); [|exact Hwf].
        intros inputs Hi. destruct (Hrows inputs Hi) as (_ & _ & ->). reflexivity.
    + rewrite !length_map. exact HG.
    + rewrite map_map. apply Forall_map.
      apply (Forall_impl _ (P := boxes_well_formed fmt)); [|exact Hwf].
      intros inputs Hi. destruct (Hrows inputs Hi) as (H5 & _). exact H5.
Qed.

End ApplyPad.

(** ** Batches *)

Lemma Forall2_compose {A B C : Type} (R : A -> B -> Prop) (S : B -> C -> Prop)
  (xs : list A) (ys : list B) (zs : list C) :
  Forall2 R xs ys -> Forall2 S ys zs ->
  Forall2 (fun x z => exists y, R x y /\ S y z) xs zs.
Proof.
  intros H. revert zs. induction H as [|x y xs ys Hxy _ IH]; intros zs Hz;
    inversion Hz; subst; constructor.
  - exists y. split; assumption.
  - apply IH. assumption.
Qed.

Lemma Forall2_map_left {A B C : Type} (f : A -> B) (R : B -> C -> Prop)
  (xs : list A) (zs : list C) :
  Forall2 R (map f xs) zs -> Forall2 (fun x z => R (f x) z) xs zs.
Proof.
  revert zs. induction xs as [|x xs IH]; intros zs H; inversion H; subst;
    constructor; auto.
Qed.

Lemma Forall2_In_right {A B : Type} (R : A -> B -> Prop) (xs : list A)
  (ys : list B) (y : B) :
  Forall2 R xs ys -> In y ys -> exists x, In x xs /\ R x y.
Proof.
  induction 1 as [|x y' xs ys Hxy _ IH]; intros Hin; [contradiction|].
  destruct Hin as [<-|Hin].
  - exists x. split; [left; reflexivity | exact Hxy].
  - destruct (IH Hin) as (x' & Hx' & HR). exists x'. split; [right|]; assumption.
Qed.

Lemma Forall2_take {A B : Type} (R : A -> B -> Prop) (n : nat) (xs : list A)
  (ys : list B) :
  Forall2 R xs ys -> Forall2 R (firstn n xs) (firstn n ys).
Proof.
  intros H. revert n. induction H; intros [|n]; simpl; constructor; auto.
Qed.

Lemma Forall2_drop {A B : Type} (R : A -> B -> Prop) (n : nat) (xs : list A)
  (ys : list B) :
  Forall2 R xs ys -> Forall2 R (skipn n xs) (skipn n ys).
Proof.
  intros H. revert n. induction H; intros [|n]; simpl; try constructor; auto.
Qed.

Lemma Forall2_chunks {A B : Type} (R : A -> B -> Prop) (fuel n : nat) (drop : bool)
  (xs : list A) (ys : list B) :
  Forall2 R xs ys ->
  Forall2 (Forall2 R) (chunks fuel n drop xs) (chunks fuel n drop ys).
Proof.
  revert xs ys. induction fuel as [|fuel IH]; intros xs ys H; simpl; [constructor|].
  pose proof (Forall2_length H) as Hlen.
  destruct H as [|x y xs ys Hxy Hrest]; [constructor|].
  rewrite <- Hlen.
  destruct (Nat.ltb (List.length (x :: xs)) n).
  - destruct drop; repeat constructor; assumption.
  - constructor.
    + apply Forall2_take. constructor; assumption.
    + apply IH. apply Forall2_drop. constructor; assumption.
Qed.

Lemma chunks_map {A B : Type} (f : A -> B) (fuel n : nat) (drop : bool)
  (xs : list A) :
  chunks fuel n drop (map f xs) = map (map f) (chunks fuel n drop xs).
Proof.
  revert xs. induction fuel as [|fuel IH]; intros xs; simpl; [reflexivity|].
  destruct xs as [|x xs]; [reflexivity|].
  change (f x :: map f xs) with (map f (x :: xs)).
  rewrite length_map. destruct (Nat.ltb (List.length (x :: xs)) n).
  - destruct drop; reflexivity.
  - rewrite firstn_map, skipn_map, IH. reflexivity.
Qed.

(** With enough fuel, a stream of [N] elements is cut into [N / n] full
    groups. *)
Lemma chunks_count {A : Type} (fuel n : nat) (xs : list A) :
  0 < n -> List.length xs <= fuel ->
  List.length (chunks fuel n true xs) = List.length xs / n.
Proof.
  intros Hn. revert xs. induction fuel as [|fuel IH]; intros xs Hf.
  - destruct xs; [|simpl in Hf; lia]. simpl. symmetry. apply Nat.Div0.div_0_l.
  - simpl. destruct xs as [|x xs']; [symmetry; apply Nat.Div0.div_0_l|].
    remember (x :: xs') as xs eqn:Hxs. clear Hxs.
    destruct (Nat.ltb_spec (List.length xs) n) as [Hlt|Hge].
    + simpl. symmetry. apply Nat.div_small. exact Hlt.
    + change (S (List.length (chunks fuel n true (skipn n xs)))
              = List.length xs / n).
      rewrite IH by (rewrite length_skipn; lia).
      rewrite length_skipn.
      replace (List.length xs / n)
        with ((List.length xs - n + 1 * n) / n) by (f_equal; lia).
      rewrite Nat.div_add by lia. lia.
Qed.

Lemma pick_seq {A : Type} (xs : list A) : pick (seq 0 (List.length xs)) xs = xs.
Proof.
  unfold pick.
  assert (forall (pre : list A),
            flat_map (fun i => match nth_error (pre ++ xs) i with
                               | Some x => [x]
                               | None => []
                               end) (seq (List.length pre) (List.length xs)) = xs)
    as H.
  { induction xs as [|x xs IH]; intros pre; simpl; [reflexivity|].
    rewrite nth_error_app2 by lia. rewrite Nat.sub_diag. simpl. f_equal.
    specialize (IH (pre ++ [x])). rewrite length_app in IH. simpl in IH.
    rewrite Nat.add_1_r, <- app_assoc in IH. exact IH. }
  exact (H []).
Qed.

Lemma pick_permutation {A : Type} (order : list nat) (xs : list A) :
  Permutation order (seq 0 (List.length xs)) -> Permutation (pick order xs) xs.
Proof.
  intros H. rewrite <- (pick_seq xs) at 2. unfold pick.
  apply Permutation_flat_map. exact H.
Qed.

Section BatchFacts.
Context {tf : Framework}.

Lemma combine_fst_snd {A B : Type} (l : list (A * B)) :
  combine (map fst l) (map snd l) = l.
Proof.
  induction l as [|[a b] l IH]; simpl; [reflexivity|]. rewrite IH. reflexivity.
Qed.

(** [unbatch] undoes [ragged_batch]. *)
Lemma unbatch_ragged_batch (group : list value) (y : value) :
  ragged_batch group = Ok y -> unbatch y = group.
Proof.
  unfold ragged_batch. intros H.
  destruct (mapM _ group) as [samples|e] eqn:Hs; simpl in H; [|discriminate H].
  injection H as <-. simpl. rewrite combine_fst_snd.
  apply mapM_ok_Forall2 in Hs. induction Hs as [|v s group samples Hv _ IH];
    simpl; [reflexivity|].
  rewrite IH. f_equal.
  destruct v; try discriminate Hv. injection Hv as <-. reflexivity.
Qed.

Lemma ds_run_batch_inv (r : rng) (d : dataset) (n : Z) (drop : bool)
  (out : list value) :
  ds_run r (dense_to_ragged_batch d n drop) = Ok out ->
  exists xs,
    ds_run r d = Ok xs /\ (0 < n)%Z /\
    mapM ragged_batch (chunks (List.length xs) (Z.to_nat n) drop xs) = Ok out.
Proof.
  cbn [ds_run]. intros H.
  destruct (ds_run r d) as [xs|e]; simpl in H; [|discriminate H].
  destruct (Z.leb_spec n 0) as [Hn|Hn]; [discriminate H|].
  exists xs. repeat split; assumption.
Qed.

Lemma ds_run_map_inv (r : rng) (d : dataset) (f : map_fn) (k : Z)
  (out : list value) :
  ds_run r (ds_map d f k) = Ok out ->
  exists xs,
    ds_run r d = Ok xs /\
    Forall2 (fun x y => exists draw, apply_map_fn f draw x = Ok y) xs out.
Proof.
  cbn [ds_run]. intros H.
  destruct (ds_run r d) as [xs|e]; simpl in H; [|discriminate H].
  exists xs. split; [reflexivity|].
  apply mapM_from_ok_Forall2 in H.
  apply (Forall2_impl (R1 := fun x y => exists j,
           apply_map_fn f (draw_at r f j) x = Ok y)); [|exact H].
  intros x y (j & Hj). exists (draw_at r f j). exact Hj.
Qed.

(** X1. The batching stage cuts the stream of per-image dictionaries into
    consecutive groups of [GLOBAL_BATCH_SIZE]: the batches, taken apart
    again and in their order, are the dictionaries in their order, less a
    remainder at the end of fewer than [GLOBAL_BATCH_SIZE] that is dropped;
    [N] dictionaries give [N / GLOBAL_BATCH_SIZE] batches. *)
Theorem batches_cover_stream (r : rng) (G : Z) (source : dataset)
  (batches : list value) :
  ds_run r (batches_of G source) = Ok batches ->
  exists samples rest,
    ds_run r (samples_of source) = Ok samples /\
    samples = flat_map unbatch batches ++ rest /\
    List.length rest < Z.to_nat G /\
    List.length batches = List.length samples / Z.to_nat G.
Proof.
  unfold batches_of. intros H.
  apply ds_run_batch_inv in H as (samples & Hs & HG & Hb).
  assert (0 < Z.to_nat G) as Hn by lia.
  destruct (chunks_concat (List.length samples) (Z.to_nat G) true samples Hn
              (Nat.le_refl _)) as (rest & Heq & Hrest & _).
  apply mapM_ok_Forall2 in Hb.
  assert (map unbatch batches
          = chunks (List.length samples) (Z.to_nat G) true samples) as Hun.
  { clear Heq. induction Hb as [|group y groups ys Hy _ IH]; simpl; [reflexivity|].
    rewrite IH, (unbatch_ragged_batch _ _ Hy). reflexivity. }
  exists samples, rest. split; [exact Hs|]. split; [|split].
  - rewrite flat_map_concat_map, Hun. exact Heq.
  - exact Hrest.
  - rewrite <- (Forall2_length Hb). apply chunks_count; [exact Hn | apply Nat.le_refl].
Qed.

(** A batch of a pipeline and the group of examples it is made from. *)
Lemma batches_of_groups (r : rng) (G : Z) (source : dataset)
  (data : list Example) (batches : list value) :
  ds_run r source = Ok (map VExample data) ->
  ds_run r (batches_of G source) = Ok batches ->
  (0 < G)%Z /\
  Forall2 (fun group b => exists samples,
             mapM (apply "xywh") group = Ok samples /\
             b = VBatch (map fst samples) (map snd samples))
          (chunks (List.length data) (Z.to_nat G) true data) batches.
Proof.
  intros Hsrc H. unfold batches_of in H.
  apply ds_run_batch_inv in H as (samples & Hs & HG & Hb).
  split; [exact HG|].
  apply ds_run_map_inv in Hs as (xs & Hxs & Hsamples).
  rewrite Hsrc in Hxs. injection Hxs as <-.
  apply mapM_ok_Forall2 in Hb.
  assert (List.length samples = List.length data) as Hl
    by (rewrite <- (Forall2_length Hsamples); apply length_map).
  rewrite Hl in Hb.
  pose proof (Forall2_chunks _ (List.length data) (Z.to_nat G) true _ _ Hsamples)
    as Hgroups.
  rewrite chunks_map in Hgroups.
  apply Forall2_map_left in Hgroups.
  eapply Forall2_impl; [|exact (Forall2_compose _ _ _ _ _ Hgroups Hb)].
  cbv beta. intros group b (vs & Hvs & Hbatch).
  unfold ragged_batch in Hbatch.
  destruct (mapM _ vs) as [samples'|e] eqn:Hm; simpl in Hbatch; [|discriminate Hbatch].
  injection Hbatch as <-. exists samples'. split; [|reflexivity].
  apply mapM_ok_Forall2 in Hm. clear - Hvs Hm.
  revert samples' Hm. remember (map VExample group) as vgroup eqn:Hvg.
  revert group Hvg.
  induction Hvs as [|x v xs vs (draw & Hx) _ IH]; intros group Hvg samples' Hm.
  - destruct group; [|discriminate Hvg]. inversion Hm. reflexivity.
  - destruct group as [|inputs group]; [discriminate Hvg|].
    injection Hvg as -> ->. inversion Hm as [|? s ? ss Hv Hrest]; subst.
    apply apply_unpackage_inv in Hx as (inputs' & image & bbs & Heq & Ha & ->).
    injection Heq as <-. injection Hv as <-.
    simpl. rewrite Ha. simpl. rewrite (IH group eq_refl ss Hrest). reflexivity.
Qed.

Lemma labeled_by_batches (r : rng) (G : Z) (l : layer) (d : dataset)
  (out : list value) :
  ds_run r (labeled_by G l d) = Ok out ->
  exists batches,
    ds_run r d = Ok batches /\
    Forall2 (fun b v => exists images bbs draw images' boxes_out boxes classes,
               b = VBatch images bbs /\
               apply_layer l draw (images, bbs) = Ok (images', boxes_out) /\
               pad_fn G images' boxes_out = Ok (images', (boxes, classes)) /\
               v = VLabeled images' boxes classes) batches out.
Proof.
  unfold labeled_by. intros H.
  apply ds_run_map_inv in H as (x3 & H & H3).
  apply ds_run_map_inv in H as (x2 & H & H2).
  apply ds_run_map_inv in H as (x1 & H & H1).
  exists x1. split; [exact H|].
  eapply Forall2_impl;
    [|exact (Forall2_compose _ _ _ _ _ (Forall2_compose _ _ _ _ _ H1 H2) H3)].
  cbv beta. intros b v (t & (a & (d1 & Ha) & (d2 & Ht)) & (d3 & Hv)).
  apply apply_layer_inv in Ha as (bi & bxi & imgs & bxo & -> & Hl & ->).
  apply apply_tuple_inv in Ht as (imgs' & bxo' & Heq & ->).
  injection Heq as <- <-.
  apply apply_pad_fn_inv in Hv as (imgs' & bxo' & gb & gc & Heq & Hp & ->).
  injection Heq as <- <-.
  exists bi, bxi, d1, imgs, bxo, gb, gc. repeat split; assumption.
Qed.

Lemma delivered_from_batch (l : layer) (G : Z) (group : list Example) (b v : value) :
  (exists samples,
     mapM (apply "xywh") group = Ok samples /\
     b = VBatch (map fst samples) (map snd samples)) ->
  (exists images bbs draw images' boxes_out boxes classes,
     b = VBatch images bbs /\
     apply_layer l draw (images, bbs) = Ok (images', boxes_out) /\
     pad_fn G images' boxes_out = Ok (images', (boxes, classes)) /\
     v = VLabeled images' boxes classes) ->
  delivered_from l G group v.
Proof.
  intros (samples & Hs & ->) (images & bbs & draw & imgs & bxo & gb & gc
                               & Heq & Hl & Hp & ->).
  injection Heq as <- <-.
  exists samples, draw, imgs, bxo, gb, gc. repeat split; assumption.
Qed.

(** The evaluation pipeline, group by group. *)
Lemma eval_pipeline_groups (r : rng) (n : Z) (out : list value) :
  ds_run r (eval_pipeline n) = Ok out ->
  let data := map example_of (tfds_data "voc/2007" "test" false) in
  (0 < 4 * n)%Z /\
  Forall2 (delivered_from eval_resizing_layer (4 * n))
          (chunks (List.length data) (Z.to_nat (4 * n)) true data) out.
Proof.
  intros H data. unfold eval_pipeline in H.
  apply labeled_by_batches in H as (batches & Hb & Hout).
  cbn [ds_run] in Hb.
  assert (ds_run r eval_source = Ok (map VExample data)) as Hsrc.
  { unfold eval_source, data. cbn [ds_run]. rewrite map_map. reflexivity. }
  destruct (batches_of_groups r (4 * n) eval_source data batches Hsrc Hb)
    as (HG & Hgroups).
  split; [exact HG|].
  eapply Forall2_impl; [|exact (Forall2_compose _ _ _ _ _ Hgroups Hout)].
  cbv beta. intros group v (b & Hb1 & Hb2).
  exact (delivered_from_batch _ _ _ _ _ Hb1 Hb2).
Qed.

(** X2. In a run that reaches its end, a pass over the evaluation pipeline
    delivers one element for each group of [GLOBAL_BATCH_SIZE] consecutive
    examples of the voc/2007 test split, in the order of the split: the
    element is [pad_fn] of what the resizing layer makes of the batch of
    these examples, each gone through [apply]. *)
Theorem eval_batches_in_order (h : host) (args : argv) (o : oracle) (g : globals)
  (r : rng) (out : list value) :
  script h args o = Ok g ->
  ds_run r (g_eval_ds g) = Ok out ->
  let data := map example_of (tfds_data "voc/2007" "test" false) in
  let G := g_GLOBAL_BATCH_SIZE g in
  Forall2 (delivered_from (g_eval_resizing g) G)
          (chunks (List.length data) (Z.to_nat G) true data) out.
Proof.
  intros H Hrun data G. apply script_ok in H as [_ Hg].
  subst G. rewrite Hg in Hrun |- *.
  exact (proj2 (eval_pipeline_groups r _ out Hrun)).
Qed.

(** X3. In a run that reaches its end, a pass over the evaluation pipeline
    delivers [N / GLOBAL_BATCH_SIZE] elements, [N] the number of examples
    of the voc/2007 test split: up to [GLOBAL_BATCH_SIZE - 1] examples at
    the end of the split are never evaluated, and a split smaller than one
    batch gives no element at all. *)
Theorem eval_batches_count (h : host) (args : argv) (o : oracle) (g : globals)
  (r : rng) (out : list value) :
  script h args o = Ok g ->
  ds_run r (g_eval_ds g) = Ok out ->
  let N := List.length (tfds_data "voc/2007" "test" false) in
  let G := Z.to_nat (g_GLOBAL_BATCH_SIZE g) in
  List.length out = N / G /\
  N - G * List.length out < G /\
  (N < G -> out = []).
Proof.
  intros H Hrun N G. apply script_ok in H as [_ Hg].
  assert (0 < G /\ List.length out = N / G) as [HG Hcount].
  { subst G N. rewrite Hg in Hrun |- *.
    destruct (eval_pipeline_groups r _ out Hrun) as (HG & Hgroups).
    cbv zeta in Hgroups. apply Forall2_length in Hgroups.
    cbn [g_GLOBAL_BATCH_SIZE final_globals].
    split; [lia|]. rewrite <- Hgroups, chunks_count, length_map.
    - reflexivity.
    - lia.
    - apply Nat.le_refl. }
  split; [exact Hcount|]. split.
  - rewrite Hcount. pose proof (Nat.Div0.mod_eq N G) as Hm.
    pose proof (Nat.mod_upper_bound N G) as Hu. lia.
  - intros Hlt. apply length_zero_iff_nil. rewrite Hcount.
    apply Nat.div_small. exact Hlt.
Qed.

(** X4. In a run that reaches its end, the shuffle of the training
    pipeline moves whole batches: every element a pass delivers is made,
    by the augmenter and [pad_fn], from one group of [GLOBAL_BATCH_SIZE]
    consecutive examples of the concatenated voc/2007 and voc/2012
    train+validation splits, whatever order the shuffle emits. *)
Theorem train_batches_keep_their_examples (h : host) (args : argv) (o : oracle)
  (g : globals) (r : rng) (out : list value) :
  script h args o = Ok g ->
  ds_run r (g_train_ds g) = Ok out ->
  let data :=
    map example_of (tfds_data "voc/2007" "train+validation" true
                    ++ tfds_data "voc/2012" "train+validation" true) in
  let G := g_GLOBAL_BATCH_SIZE g in
  Forall (fun v => exists group,
            In group (chunks (List.length data) (Z.to_nat G) true data) /\
            delivered_from (g_augmenter g) G group v) out.
Proof.
  intros H Hrun data G. apply script_ok in H as [_ Hg].
  subst G. rewrite Hg in Hrun |- *.
  cbn [g_train_ds g_GLOBAL_BATCH_SIZE g_augmenter final_globals] in Hrun |- *.
  set (n := num_replicas_in_sync h (g_strategy g)) in *.
  unfold train_pipeline in Hrun.
  apply labeled_by_batches in Hrun as (shuffled & Hb & Hout).
  cbn [ds_run] in Hb.
  destruct (ds_run r (batches_of (4 * n) train_source)) as [batches|e] eqn:Hbatches;
    simpl in Hb; [|discriminate Hb].
  injection Hb as <-.
  assert (ds_run r train_source = Ok (map VExample data)) as Hsrc.
  { unfold train_source, data. cbn [ds_run obind].
    rewrite map_map, map_app. reflexivity. }
  destruct (batches_of_groups r (4 * n) train_source data batches Hsrc Hbatches)
    as (_ & Hgroups).
  apply Forall_forall. intros v Hv.
  destruct (Forall2_In_right _ _ _ _ Hout Hv) as (b & Hb & Hbv).
  apply pick_In in Hb.
  destruct (Forall2_In_right _ _ _ _ Hgroups Hb) as (group & Hgroup & Hgb).
  exists group. split; [exact Hgroup|].
  exact (delivered_from_batch _ _ _ _ _ Hgb Hbv).
Qed.

End BatchFacts.

(** ** More on the [try] statement and on the shuffle *)

Section TryAndShuffle.
Context {tf : Framework}.

(** X9. Edge cases of the [try] statement of lines 54-59.  A [ValueError]
    raised by the [TPUStrategy] constructor, after the connection
    succeeded, is caught like one of the connection, and the script then
    runs to its end on [MirroredStrategy]; an exception raised by
    [MirroredStrategy()] inside the handler is not caught, be it a
    [ValueError]; and when the body returns, what [MirroredStrategy()]
    would do does not matter. *)
Theorem try_statement_edges (h : host) (args : argv) (o : oracle) :
  (forall e, o (At 55 "TPUClusterResolver.connect") = None ->
             o (At 56 "TPUStrategy") = Some e ->
             isinstance e "ValueError" = true ->
             build_strategy o = call (At 59 "MirroredStrategy") MirroredStrategy o) /\
  (forall e, isinstance e "ValueError" = true ->
             script h args (raise_only (At 56 "TPUStrategy") e)
             = Ok (final_globals 100 h args MirroredStrategy)) /\
  (forall e e', first_raise o sites_in_try = Some e ->
                isinstance e "ValueError" = true ->
                o (At 59 "MirroredStrategy") = Some e' ->
                build_strategy o = Raise e' /\
                (first_raise o sites_before_try = None ->
                 script h args o = Raise e')) /\
  (forall o', o (At 55 "TPUClusterResolver.connect") = None ->
              o (At 56 "TPUStrategy") = None ->
              (forall s, s <> At 59 "MirroredStrategy" -> o' s = o s) ->
              build_strategy o' = build_strategy o /\
              script h args o' = script h args o).
Proof.
  split; [|split; [|split]].
  - intros e H55 H56 Hv. rewrite build_strategy_cases, H55, H56, Hv. reflexivity.
  - intros e Hv.
    assert (build_strategy (raise_only (At 56 "TPUStrategy") e) = Ok MirroredStrategy)
      as Hb by (rewrite build_strategy_cases; cbn; rewrite Hv; reflexivity).
    unfold script. rewrite script_run. unfold script_outcome.
    rewrite (first_raise_absent _ e sites_before_try) by (vm_compute; reflexivity).
    rewrite Hb.
    rewrite (first_raise_absent _ e sites_after_try) by (vm_compute; reflexivity).
    reflexivity.
  - intros e e' Hfirst Hv H59.
    assert (build_strategy o = Raise e') as Hb.
    { rewrite build_strategy_cases. simpl in Hfirst. unfold call.
      destruct (o (At 55 "TPUClusterResolver.connect")) as [e1|].
      - injection Hfirst as ->. rewrite Hv, H59. reflexivity.
      - destruct (o (At 56 "TPUStrategy")) as [e2|]; [|discriminate Hfirst].
        injection Hfirst as ->. rewrite Hv, H59. reflexivity. }
    split; [exact Hb|]. intros Hbefore.
    unfold script. rewrite script_run. unfold script_outcome.
    rewrite Hbefore, Hb. reflexivity.
  - intros o' H55 H56 Hsame.
    assert (forall sites, existsb (site_eqb (At 59 "MirroredStrategy")) sites = false ->
                          first_raise o' sites = first_raise o sites) as Hfirst.
    { induction sites as [|s sites IH]; simpl; intros Hs; [reflexivity|].
      apply orb_false_iff in Hs as [Hs Hrest].
      rewrite Hsame.
      - rewrite (IH Hrest). reflexivity.
      - intros ->. assert (site_eqb (At 59 "MirroredStrategy")
                             (At 59 "MirroredStrategy") = true) as Ht
          by (apply site_eqb_eq; reflexivity).
        rewrite Ht in Hs. discriminate Hs. }
    assert (build_strategy o' = build_strategy o) as Hb.
    { rewrite !build_strategy_cases.
      rewrite (Hsame (At 55 "TPUClusterResolver.connect")) by discriminate.
      rewrite (Hsame (At 56 "TPUStrategy")) by discriminate.
      rewrite H55, H56. reflexivity. }
    split; [exact Hb|].
    unfold script. rewrite !script_run. unfold script_outcome.
    rewrite Hb, !Hfirst by (vm_compute; reflexivity). reflexivity.
Qed.

(** X10. In a run that reaches its end, when the shuffle emits its input
    in some permuted order, a pass over the training pipeline delivers
    [N / GLOBAL_BATCH_SIZE] elements, [N] the number of examples of the
    two train+validation splits together: the two splits are batched as
    one stream, and fewer than [GLOBAL_BATCH_SIZE] examples are left
    out. *)
Theorem train_batches_count (h : host) (args : argv) (o : oracle) (g : globals)
  (r : rng) (out : list value) :
  script h args o = Ok g ->
  ds_run r (g_train_ds g) = Ok out ->
  let N := List.length (tfds_data "voc/2007" "train+validation" true)
           + List.length (tfds_data "voc/2012" "train+validation" true) in
  let G := Z.to_nat (g_GLOBAL_BATCH_SIZE g) in
  Permutation
    (shuffle_order r (8 * num_replicas_in_sync h (g_strategy g)) (N / G))
    (seq 0 (N / G)) ->
  List.length out = N / G /\ N - G * List.length out < G.
Proof.
  intros H Hrun N G Hperm. apply script_ok in H as [_ Hg].
  set (n := num_replicas_in_sync h (g_strategy g)) in *.
  assert (G = Z.to_nat (4 * n)) as HGn by (subst G; rewrite Hg; reflexivity).
  rewrite Hg in Hrun. cbn [g_train_ds final_globals] in Hrun. fold n in Hrun.
  unfold train_pipeline in Hrun.
  apply labeled_by_batches in Hrun as (shuffled & Hb & Hout).
  cbn [ds_run] in Hb.
  destruct (ds_run r (batches_of (4 * n) train_source)) as [batches|e] eqn:Hbatches;
    simpl in Hb; [|discriminate Hb].
  injection Hb as <-.
  set (data := map example_of
                 (tfds_data "voc/2007" "train+validation" true
                  ++ tfds_data "voc/2012" "train+validation" true)).
  assert (ds_run r train_source = Ok (map VExample data)) as Hsrc.
  { unfold train_source, data. cbn [ds_run obind].
    rewrite map_map, map_app. reflexivity. }
  destruct (batches_of_groups r (4 * n) train_source data batches Hsrc Hbatches)
    as (HG & Hgroups).
  assert (List.length data = N) as HN
    by (unfold data; rewrite length_map, length_app; reflexivity).
  assert (List.length batches = N / G) as Hcount.
  { rewrite <- (Forall2_length Hgroups), chunks_count, HN, HGn.
    - reflexivity.
    - lia.
    - apply Nat.le_refl. }
  rewrite Hcount in Hout.
  assert (List.length out = N / G) as Hlen.
  { rewrite <- (Forall2_length Hout), <- Hcount.
    apply Permutation_length. apply pick_permutation.
    rewrite Hcount. exact Hperm. }
  split; [exact Hlen|].
  rewrite Hlen. pose proof (Nat.Div0.mod_eq N G) as Hm.
  pose proof (Nat.mod_upper_bound N G) as Hu. lia.
Qed.

End TryAndShuffle.

(** ** The further theorems at work on the small framework *)

Lemma batches_cover_stream_witness :
  exists samples rest,
    ds_run (tf := toy) toy_rng (batches_of 4 eval_source) = Ok toy_eval_stage /\
    ds_run (tf := toy) toy_rng (samples_of eval_source) = Ok samples /\
    samples = flat_map (unbatch (tf := toy)) toy_eval_stage ++ rest /\
    List.length rest < 4 /\
    List.length toy_eval_stage = List.length samples / 4.
Proof.
  assert (ds_run (tf := toy) toy_rng (batches_of 4 eval_source) = Ok toy_eval_stage)
    as Hrun by (vm_compute; reflexivity).
  destruct (batches_cover_stream (tf := toy) toy_rng 4 eval_source toy_eval_stage Hrun)
    as (samples & rest & Hs & Heq & Hrest & Hcount).
  exists samples, rest. repeat split; assumption.
Defined.

Lemma eval_batches_in_order_witness :
  exists g out,
    script toy_host [] quiet = Ok g /\
    ds_run (tf := toy) toy_rng (g_eval_ds g) = Ok out /\
    Forall2 (delivered_from (tf := toy) (g_eval_resizing g) (g_GLOBAL_BATCH_SIZE g))
      [map (example_of (tf := toy)) (map toy_example [100; 101; 102; 103]%Z)]
      out.
Proof.
  assert (ds_run (tf := toy) toy_rng (g_eval_ds toy_end) = Ok toy_eval_batches)
    as Hrun by (vm_compute; reflexivity).
  exists toy_end, toy_eval_batches.
  split; [reflexivity|]. split; [exact Hrun|].
  exact (eval_batches_in_order (tf := toy) toy_host [] quiet toy_end toy_rng
           toy_eval_batches eq_refl Hrun).
Defined.

Lemma eval_batches_count_witness :
  exists g out,
    script toy_host [] quiet = Ok g /\
    ds_run (tf := toy) toy_rng (g_eval_ds g) = Ok out /\
    List.length out = 1 /\
    5 - 4 * List.length out < 4.
Proof.
  assert (ds_run (tf := toy) toy_rng (g_eval_ds toy_end) = Ok toy_eval_batches)
    as Hrun by (vm_compute; reflexivity).
  exists toy_end, toy_eval_batches.
  split; [reflexivity|]. split; [exact Hrun|].
  pose proof (eval_batches_count (tf := toy) toy_host [] quiet toy_end toy_rng
                toy_eval_batches eq_refl Hrun) as H.
  cbv zeta in H. destruct H as (H1 & H2 & _).
  split; [exact H1 | exact H2].
Defined.

Lemma train_batches_keep_their_examples_witness :
  exists g out,
    script toy_host [] quiet = Ok g /\
    ds_run (tf := toy) toy_rng (g_train_ds g) = Ok out /\
    Forall (fun v => exists group,
              In group [map (example_of (tf := toy))
                          (map toy_example [1; 2; 3; 11]%Z)] /\
              delivered_from (tf := toy) (g_augmenter g) (g_GLOBAL_BATCH_SIZE g)
                group v) out.
Proof.
  assert (ds_run (tf := toy) toy_rng (g_train_ds toy_end) = Ok toy_train_batches)
    as Hrun by (vm_compute; reflexivity).
  exists toy_end, toy_train_batches.
  split; [reflexivity|]. split; [exact Hrun|].
  exact (train_batches_keep_their_examples (tf := toy) toy_host [] quiet toy_end
           toy_rng toy_train_batches eq_refl Hrun).
Defined.

Lemma train_batches_count_witness :
  exists g out,
    script toy_host [] quiet = Ok g /\
    ds_run (tf := toy) toy_rng (g_train_ds g) = Ok out /\
    List.length out = 1 /\ 6 - 4 * List.length out < 4.
Proof.
  assert (ds_run (tf := toy) toy_rng (g_train_ds toy_end) = Ok toy_train_batches)
    as Hrun by (vm_compute; reflexivity).
  exists toy_end, toy_train_batches.
  split; [reflexivity|]. split; [exact Hrun|].
  exact (train_batches_count (tf := toy) toy_host [] quiet toy_end toy_rng
           toy_train_batches eq_refl Hrun (Permutation_refl [0])).
Defined.

Lemma pad_fn_well_formed_witness :
  pad_fn (tf := toy) 2 [7; 8]%Z [[[1; 2; 3; 4; 5]%Q]; []]
  = Ok ([7; 8]%Z,
        ([[1; 2; 3; 4]%Q :: repeat (repeat (-1)%Q 4) 31;
          repeat (repeat (-1)%Q 4) 32],
         [5%Q :: repeat (-1)%Q 31; repeat (-1)%Q 32])) /\
  nth_error [[1; 2; 3; 4]%Q :: repeat (repeat (-1)%Q 4) 31;
             repeat (repeat (-1)%Q 4) 32] 1
  = Some (repeat (repeat (-1)%Q 4) 32).
Proof.
  destruct (pad_fn_well_formed (tf := toy) 2 [7; 8]%Z [[[1; 2; 3; 4; 5]%Q]; []])
    as (H1 & H2).
  - reflexivity.
  - repeat constructor.
  - split; [exact H1 | exact (proj1 (H2 1 eq_refl))].
Defined.


Lemma apply_then_pad_fn_witness :
  exists samples,
    mapM (apply (tf := toy) "xywh") [example_of (tf := toy) (toy_example 7)]
    = Ok samples /\
    pad_fn (tf := toy) 1 (map fst samples) (map snd samples)
    = Ok ([6%Z],
          ([[1 # 10; 2 # 10; 5 # 10; 6 # 10]%Q :: [0; 0; 1; 1]%Q
            :: repeat (repeat (-1)%Q 4) 30],
           [inject_Z 7 :: inject_Z 8 :: repeat (-1)%Q 30])).
Proof.
  destruct (apply_then_pad_fn (tf := toy) "xywh" 1
              [example_of (tf := toy) (toy_example 7)])
    as (samples & Hs & Hi & Hp).
  - reflexivity.
  - repeat constructor.
  - exists samples. split; [exact Hs|].
    rewrite Hp, Hi. reflexivity.
Defined.

Lemma try_statement_edges_witness :
  build_strategy (raise_only (At 56 "TPUStrategy") UnicodeError) = Ok MirroredStrategy /\
  script toy_host [] (raise_only (At 56 "TPUStrategy") ValueError)
  = Ok (final_globals 100 toy_host [] MirroredStrategy) /\
  build_strategy
    (fun s => if site_eqb s (At 59 "MirroredStrategy") then Some RuntimeError
              else raise_only (At 55 "TPUClusterResolver.connect") ValueError s)
  = Raise RuntimeError /\
  script toy_host [] (raise_only (At 59 "MirroredStrategy") ValueError)
  = script toy_host [] quiet.
Proof.
  split; [|split; [|split]].
  - destruct (try_statement_edges toy_host []
                (raise_only (At 56 "TPUStrategy") UnicodeError)) as (H & _).
    rewrite (H UnicodeError eq_refl eq_refl eq_refl). reflexivity.
  - destruct (try_statement_edges toy_host [] quiet) as (_ & H & _).
    exact (H ValueError eq_refl).
  - destruct (try_statement_edges toy_host []
                (fun s => if site_eqb s (At 59 "MirroredStrategy")
                          then Some RuntimeError
                          else raise_only (At 55 "TPUClusterResolver.connect")
                                 ValueError s))
      as (_ & _ & H & _).
    exact (proj1 (H ValueError RuntimeError eq_refl eq_refl eq_refl)).
  - destruct (try_statement_edges toy_host [] quiet)
      as (_ & _ & _ & H).
    apply (H (raise_only (At 59 "MirroredStrategy") ValueError) eq_refl eq_refl).
    intros s Hs. unfold raise_only, quiet.
    destruct (site_eqb s (At 59 "MirroredStrategy")) eqn:E; [|reflexivity].
    apply site_eqb_eq in E. contradiction.
Defined.
